(** * Air Waybill Extractor: the response parser and the renderer of [main.py]

    A shallow embedding of [src/main.py]:
    - [Py]: the Python values that [json.loads] produces, with the few
      built-in operations the program applies to them ([dict.get],
      truthiness, [isinstance], [str.strip]);
    - [Re]: the backtracking matcher behind [re.search(r'\{.*\}', s, re.DOTALL)];
    - [St]: the Streamlit calls as a writer/exception monad over the elements
      delivered to the page;
    - [Main]: [extract_awb_data], [display_awb_data] and the handler of the
      "Extract Information" button;
    - [Spec]: the vocabulary of the statements and the worlds of the examples;
    - [Script]: the page script around the handler (the widgets, the secret,
      the button);
    - [Terms]: more vocabulary (the keys read, the text areas of a page);
    - [ReFacts], [UIFacts]: lemmas on the matcher and on the page script;
    - [Parser], [Backend], [Renderer], [Further]: the properties proved;
    - [PageFacts] to [ScriptFacts]: lemmas on the page, the response page,
      the backend and the script;
    - [Coverage]: further properties of the renderer, the parser, the
      backend, the handler and the script.

    Text is a [string] holding the UTF-8 bytes of the Python [str]; the
    literals below are the source's literals byte for byte. *)

From Stdlib Require Import List Bool Arith ZArith Lia.
From Stdlib Require Import Strings.Ascii Strings.String Strings.Byte.
From Stdlib Require Import Floats.SpecFloat.
Import ListNotations.

Set Warnings "-register-all".

Local Open Scope string_scope.
Local Open Scope list_scope.

(* ================================================================== *)
(** ** Python values *)
(* ================================================================== *)

Module Py.

(** What [json.loads] builds: [None], [bool], [int], [float], [str], [list]
    and [dict] with [str] keys.  A dict is kept as its items in insertion
    order; a decoded dict has no repeated key, and [items_get] reads the
    first entry of a key. *)
Inductive value : Type :=
| PNone
| PBool (b : bool)
| PInt (z : Z)
| PFloat (f : spec_float)
| PStr (s : string)
| PList (l : list value)
| PDict (d : list (string * value)).

Definition items := list (string * value).

(** An exception object: its class name and [str(e)]. *)
Record Exception : Type := mkException { exc_class : string; exc_msg : string }.

Inductive result (A : Type) : Type :=
| Ok (a : A)
| Raise (e : Exception).
Arguments Ok {A} a.
Arguments Raise {A} e.

(** [type(v).__name__] *)
Definition type_name (v : value) : string :=
  match v with
  | PNone => "NoneType"
  | PBool _ => "bool"
  | PInt _ => "int"
  | PFloat _ => "float"
  | PStr _ => "str"
  | PList _ => "list"
  | PDict _ => "dict"
  end.

(** [AttributeError: 'T' object has no attribute 'a'] *)
Definition AttributeError (v : value) (attr : string) : Exception :=
  mkException "AttributeError"
    ("'" ++ type_name v ++ "' object has no attribute '" ++ attr ++ "'").

(** [bool(v)] *)
Definition truthy (v : value) : bool :=
  match v with
  | PNone => false
  | PBool b => b
  | PInt z => negb (Z.eqb z 0)
  | PFloat f => match f with S754_zero _ => false | _ => true end
  | PStr s => negb (String.eqb s EmptyString)
  | PList l => match l with [] => false | _ => true end
  | PDict d => match d with [] => false | _ => true end
  end.

(** [isinstance(v, list)], [isinstance(v, dict)] *)
Definition is_list (v : value) : bool :=
  match v with PList _ => true | _ => false end.
Definition is_dict (v : value) : bool :=
  match v with PDict _ => true | _ => false end.

Fixpoint items_lookup (d : items) (k : string) : option value :=
  match d with
  | [] => None
  | (k', v) :: d' => if String.eqb k' k then Some v else items_lookup d' k
  end.

(** [d.get(k, default)] on a dict. *)
Definition items_get (d : items) (k : string) (default : value) : value :=
  match items_lookup d k with
  | Some v => v
  | None => default
  end.

(** [v.get(k, default)] on any object: only a dict has the method. *)
Definition get (v : value) (k : string) (default : value) : result value :=
  match v with
  | PDict d => Ok (items_get d k default)
  | _ => Raise (AttributeError v "get")
  end.

(** *** [str.strip()]

    With no argument [strip] removes the characters for which [str.isspace]
    holds: U+0009..U+000D, U+001C..U+0020, U+0085, U+00A0, U+1680,
    U+2000..U+200A, U+2028, U+2029, U+202F, U+205F and U+3000.  On UTF-8
    text these are the byte sequences recognised below. *)

Definition byte_of (c : ascii) : N := N_of_ascii c.

Definition ascii_space (c : ascii) : bool :=
  let n := byte_of c in
  ((9 <=? n) && (n <=? 13) || (28 <=? n) && (n <=? 32))%N.

(** Is [c1 c2] the encoding of U+0085 or U+00A0? *)
Definition space2 (c1 c2 : ascii) : bool :=
  ((byte_of c1 =? 194) && ((byte_of c2 =? 133) || (byte_of c2 =? 160)))%N.

(** Is [c1 c2 c3] the encoding of one of the three-byte spaces? *)
Definition space3 (c1 c2 c3 : ascii) : bool :=
  let a := byte_of c1 in
  let b := byte_of c2 in
  let c := byte_of c3 in
  ((a =? 225) && (b =? 154) && (c =? 128)                      (* U+1680 *)
   || (a =? 226) && (b =? 128)
      && ((128 <=? c) && (c <=? 138)                           (* U+2000..U+200A *)
          || (c =? 168) || (c =? 169) || (c =? 175))           (* U+2028 U+2029 U+202F *)
   || (a =? 226) && (b =? 129) && (c =? 159)                   (* U+205F *)
   || (a =? 227) && (b =? 128) && (c =? 128))%N.               (* U+3000 *)

Fixpoint lstrip (s : string) : string :=
  match s with
  | String c1 r1 =>
      if ascii_space c1 then lstrip r1
      else match r1 with
           | String c2 r2 =>
               if space2 c1 c2 then lstrip r2
               else match r2 with
                    | String c3 r3 => if space3 c1 c2 c3 then lstrip r3 else s
                    | EmptyString => s
                    end
           | EmptyString => s
           end
  | EmptyString => s
  end.

(** The same scan from the right end, on the reversed bytes. *)
Fixpoint lstrip_rev (s : list ascii) : list ascii :=
  match s with
  | c1 :: r1 =>
      if ascii_space c1 then lstrip_rev r1
      else match r1 with
           | c2 :: r2 =>
               if space2 c2 c1 then lstrip_rev r2
               else match r2 with
                    | c3 :: r3 => if space3 c3 c2 c1 then lstrip_rev r3 else s
                    | [] => s
                    end
           | [] => s
           end
  | [] => s
  end.

Definition rstrip (s : string) : string :=
  string_of_list_ascii (rev (lstrip_rev (rev (list_ascii_of_string s)))).

Definition str_strip (s : string) : string := rstrip (lstrip s).

(** [v.strip()] on any object: only a [str] has the method. *)
Definition strip (v : value) : result value :=
  match v with
  | PStr s => Ok (PStr (str_strip s))
  | _ => Raise (AttributeError v "strip")
  end.

(** *** f-strings

    An f-string is kept as its pieces: the literal text and the values of
    its replacement fields.  [format(v, '')] of a [str] is the string
    itself; for the other types it is Python's [repr]/number formatting,
    which [text] takes as [format]. *)
Inductive piece : Type :=
| Lit (s : string)                         (* literal text *)
| Fmt (v : value)                          (* {v} *)
| FmtSpec (v : value) (spec : string).     (* {v:spec} *)

Definition fstring := list piece.

Definition piece_text (format : value -> string -> string) (p : piece) : string :=
  match p with
  | Lit s => s
  | Fmt (PStr s) => s
  | Fmt v => format v EmptyString
  | FmtSpec v spec => format v spec
  end.

Definition text (format : value -> string -> string) (f : fstring) : string :=
  String.concat EmptyString (map (piece_text format) f).

End Py.

(* ================================================================== *)
(** ** Regular expressions: the fragment [re.search] is called with *)
(* ================================================================== *)

(** The matcher reads the text byte by byte.  The pattern of the program
    names only the ASCII braces and the dot; no byte of a multi-byte UTF-8
    sequence is an ASCII character, so the span found is the one found on
    the code points. *)
Module Re.

(** A pattern is a sequence of single-character nodes, each taken once or
    under a greedy star: enough for [r'\{.*\}']. *)
Inductive charset : Type :=
| Literal (c : ascii)      (* an escaped or plain character *)
| Dot.                     (* [.] *)

Inductive node : Type :=
| One (cs : charset)
| Star (cs : charset).     (* [cs*], greedy *)

Definition pattern := list node.

(** [.] matches every character but the newline, and every character under
    [re.DOTALL]. *)
Definition accepts (dotall : bool) (cs : charset) (c : ascii) : bool :=
  match cs with
  | Literal c' => Ascii.eqb c' c
  | Dot => dotall || negb (Ascii.eqb c "010"%char)
  end.

(** Greedy repetition with backtracking: take one more character when the
    rest of the pattern can still match after it, give it back otherwise.
    [k] matches the rest of the pattern; the result is the text matched. *)
Fixpoint star_greedy (p : ascii -> bool) (k : string -> option string)
    (s : string) : option string :=
  match s with
  | String c s' =>
      if p c then
        match star_greedy p k s' with
        | Some m => Some (String c m)
        | None => k s
        end
      else k s
  | EmptyString => k s
  end.

(** Match the pattern at the start of [s]. *)
Fixpoint match_here (dotall : bool) (pat : pattern) (s : string) : option string :=
  match pat with
  | [] => Some EmptyString
  | One cs :: rest =>
      match s with
      | String c s' =>
          if accepts dotall cs c
          then option_map (String c) (match_here dotall rest s')
          else None
      | EmptyString => None
      end
  | Star cs :: rest =>
      star_greedy (accepts dotall cs) (match_here dotall rest) s
  end.

(** [re.search(pat, s, flags)]: the match at the leftmost position that has
    one; the result is [m.group(0)], [None] when there is no match. *)
Fixpoint search (dotall : bool) (pat : pattern) (s : string) : option string :=
  match match_here dotall pat s with
  | Some m => Some m
  | None =>
      match s with
      | String _ s' => search dotall pat s'
      | EmptyString => None
      end
  end.

End Re.

(* ================================================================== *)
(** ** Effects: delivered events and exceptions *)
(* ================================================================== *)

Module Run.
Import Py.

(** A computation delivers events one after the other and then returns or
    raises; what was delivered before an exception stays delivered. *)
Definition run (E A : Type) : Type := (list E * result A)%type.

Definition ret {E A} (a : A) : run E A := ([], Ok a).

Definition bind {E A B} (m : run E A) (k : A -> run E B) : run E B :=
  match m with
  | (ev, Ok a) => let (ev', r) := k a in (ev ++ ev', r)
  | (ev, Raise e) => (ev, Raise e)
  end.

Definition emit {E} (e : E) : run E unit := ([e], Ok tt).

Definition raise {E A} (e : Exception) : run E A := ([], Raise e).

Definition lift {E A} (r : result A) : run E A := ([], r).

(** [try: m  except Exception as e: h e] *)
Definition try_except {E A} (m : run E A) (h : Exception -> run E A) : run E A :=
  match m with
  | (ev, Ok a) => (ev, Ok a)
  | (ev, Raise e) => let (ev', r) := h e in (ev ++ ev', r)
  end.

Definition events {E A} (m : run E A) : list E := fst m.
Definition outcome {E A} (m : run E A) : result A := snd m.

(** [for i, x in enumerate(l): body i x], counting from [i]. *)
Fixpoint for_enumerate {E A} (body : nat -> A -> run E unit) (i : nat)
    (l : list A) : run E unit :=
  match l with
  | [] => ret tt
  | x :: l' => bind (body i x) (fun _ => for_enumerate body (S i) l')
  end.

(** [for x in l: body x] *)
Definition for_each {E A} (body : A -> run E unit) (l : list A) : run E unit :=
  for_enumerate (fun _ => body) 0 l.

Module Notations.
  Notation "x <- m ;; k" := (bind m (fun x => k))
    (at level 61, m at next level, right associativity).
  Notation "m ;; k" := (bind m (fun _ => k))
    (at level 61, right associativity).
End Notations.

End Run.

(* ================================================================== *)
(** ** Streamlit *)
(* ================================================================== *)

(** The Streamlit calls deliver their element and return; the library's own
    errors (layout and widget rules) are outside the model. *)
Module St.
Import Py Run.

(** Where an element is placed: the blocks entered by [with]. *)
Inductive block : Type :=
| Container                                    (* st.container() *)
| Column (i : nat)                             (* the i-th value of st.columns(n) *)
| Expander (label : fstring) (expanded : bool) (* st.expander(label, expanded=...) *)
| Spinner (text : string).                     (* st.spinner(text) *)

Inductive element : Type :=
| Markdown (body : fstring)
| TextArea (label : fstring) (val : value) (height : Z) (disabled : bool)
    (key : option fstring)
| Info (body : fstring)
| Success (body : fstring)
| Error (body : fstring)
| Warning (body : fstring)
| Columns (n : nat)
| DownloadButton (label : string) (data : string) (file_name : fstring)
    (mime : string)
| Json (v : value).

Record placed : Type := mkPlaced { path : list block; elem : element }.

Definition UI (A : Type) : Type := run placed A.

Definition st (e : element) : UI unit := emit (mkPlaced [] e).

Definition markdown (body : fstring) : UI unit := st (Markdown body).
Definition info (body : fstring) : UI unit := st (Info body).
Definition success (body : fstring) : UI unit := st (Success body).
Definition error (body : fstring) : UI unit := st (Error body).
Definition warning (body : fstring) : UI unit := st (Warning body).
Definition columns (n : nat) : UI unit := st (Columns n).
Definition json (v : value) : UI unit := st (Json v).
Definition text_area (label : fstring) (val : value) (height : Z)
    (disabled : bool) (key : option fstring) : UI unit :=
  st (TextArea label val height disabled key).
Definition download_button (label data : string) (file_name : fstring)
    (mime : string) : UI unit :=
  st (DownloadButton label data file_name mime).

(** [with b: m] *)
Definition within {A} (b : block) (m : UI A) : UI A :=
  (map (fun p => mkPlaced (b :: path p) (elem p)) (fst m), snd m).

(** The elements of a page, without their places. *)
Definition elements {A} (m : UI A) : list element := map elem (events m).

End St.

(* ================================================================== *)
(** ** main.py *)
(* ================================================================== *)

Module Main.
Import Py Run Run.Notations St.

(** *** The libraries the program calls

    [pdf2image], [PIL], [google.genai] and [json] are outside the program:
    a [World] fixes what each call returns or raises.  The [print] log lines
    and the wall-clock timer have no part in the results and are left out;
    the handler takes the measured [elapsed_time] as an argument. *)
Record World : Type := mkWorld {
  image : Type;
  client : Type;
  part : Type;
  response : Type;
  (* pdf2image.convert_from_bytes(pdf_bytes) *)
  convert_from_bytes : list byte -> result (list image);
  (* page.save(buffer, format="PNG"); buffer.getvalue() *)
  save_png : image -> result (list byte);
  (* genai.Client(api_key=api_key) *)
  genai_Client : string -> result client;
  (* types.Part.from_bytes(data=..., mime_type=...) *)
  Part_from_bytes : list byte -> string -> result part;
  (* client.models.generate_content(model=..., contents=[part, prompt]) *)
  generate_content : client -> string -> part -> string -> result response;
  (* response.text: a str, or None *)
  response_text : response -> result value;
  (* json.loads(s) *)
  json_loads : string -> result value;
  (* json.dumps(v, indent=n) *)
  json_dumps : value -> Z -> result string
}.

(** The library calls of the backend, in the order they are made. *)
Inductive step : Type :=
| Rasterize      (* convert_from_bytes *)
| EncodePNG      (* page.save *)
| MakeClient     (* genai.Client *)
| MakePart       (* types.Part.from_bytes *)
| Generate       (* generate_content *)
| ReadText.      (* response.text *)

Definition call {A} (s : step) (r : result A) : run step A := ([s], r).

Definition ValueError (msg : string) : Exception := mkException "ValueError" msg.

(** Replaces the stand-in [~] by the double quote. *)
Fixpoint dq (s : string) : string :=
  match s with
  | String c s' => String (if Ascii.eqb c "~"%char then "034"%char else c) (dq s')
  | EmptyString => EmptyString
  end.

(** The prompt of lines 37-87, with [~] written for the double quote. *)
Definition prompt : string := dq "
        This is an Air Waybill, extract all information in it with the headers then export it in json format. Do not make up any header. Do not make up any information. Do not include ```json ... ``` in the output.
            {{~Air Waybill Number~: ~ ~,
             ~Shipper's Name and Address~: ~ ~,
             ~Shipper's Account Number~: ~ ~,
             ~Consignee's Name and Address~: ~ ~,
             ~Issuing Carrier's Agent Name and City~: ~~,
             ~Issued by~: ~ ~,
             ~Agent's IATA Code~: ~~,
             ~Account No~: ~~,
             ~Airport of Departure (Addr. of First Carrier) and Requested Routing~: ~~,
             ~Routing and Destination~: [{{~to~: ~ ~, ~by~: ~ ~}}],
             ~Airport of Destination~: ~ ~,
             ~Flight/Date~: ~ ~,
             ~Handling Information~: ~ ~,
             ~Accounting Information~: ~ ~,
             ~Currency Code~: ~ ~,
             ~CHGS~: [{{~CHGS Code~:~ ~, ~WT/VAL~: [{{~PPD~: ~ ~, ~COLL~:~ ~}}], ~Other~: [{{~PPD~: ~ ~, ~COLL~:~ ~}}]}}],
             ~Declared Value for Carriage~: ~ ~,
             ~Declared Value for Customs~: ~ ~,
             ~Amount of Insurance~: ~~,
             ~Goods Description Table Rows~: [
                {{
                ~No. of Pieces RCP~: ~~,
                ~Gross Weight~: ~~,
                ~kg/lb~: ~~,
                ~Rate Class / Commodity Item No.~: ~~,
                ~Chargeable Weight~: ~~,
                ~Rate~: ~~,
                ~Charge~: ~~,
                ~Total~: ~~,
                ~Nature and Quantity of Goods (incl. Dimensions or Volume)~: ~~
                }}],
             ~Charges Details~: [
                {{
                ~Weight Charge~: {{~Prepaid~: ~~, ~Collect~: ~~}},
                ~Valuation Charge~: {{~Prepaid~: ~~, ~Collect~: ~~}},
                ~Tax~: {{~Prepaid~: ~~, ~Collect~: ~~}},
                ~Total Other Charges Due Agent~: {{~Prepaid~: ~~, ~Collect~: ~~}},
                ~Total Other Charges Due Carrie~: {{~Prepaid~: ~~, ~Collect~: ~~}},
                ~Total Prepaid~: ~~,
                ~Total Collect~: ~~,
                ~Currency Conversion Rates~: ~~,
                ~CC Charges at Dest Currency~:~~
                }}],
             ~Signature of Shipper of his Agent~: ~~,
             ~Executed on (date)~: ~~,
             ~at (place)~: ~~,
             ~Signature of Issuing Carrier or its Agent~: ~~
            }}
        ".

(** Lines 18-102: the body of the [try]. *)
Definition extract_awb_data_try (w : World) (pdf_bytes : list byte)
    (api_key : string) : run step value :=
  images <- call Rasterize (convert_from_bytes w pdf_bytes) ;;
  match images with
  | [] =>
      raise (ValueError
        "Could not convert PDF to image. The file might be corrupted or empty.")
  | page :: _ =>
      img_bytes <- call EncodePNG (save_png w page) ;;
      client <- call MakeClient (genai_Client w api_key) ;;
      p <- call MakePart (Part_from_bytes w img_bytes "image/png") ;;
      response <-
        call Generate (generate_content w client "models/gemini-2.5-flash" p prompt) ;;
      call ReadText (response_text w response)
  end.

(** Lines 12-106.  Both the [try] and the [except Exception] end in a
    [return]: the result is the calls made and the value returned. *)
Definition extract_awb_data (w : World) (pdf_bytes : list byte)
    (api_key : string) : list step * value :=
  match extract_awb_data_try w pdf_bytes api_key with
  | (calls, Ok text) => (calls, text)
  | (calls, Raise e) => (calls, PStr ("An error occurred: " ++ exc_msg e))
  end.

(** *** The renderer *)

Definition NA : value := PStr "N/A".

(** [v.get(k, default)] inside the page script. *)
Definition get_ (v : value) (k : string) (default : value) : UI value :=
  lift (get v k default).

(** The elements of a list; the loops below run on values already tested
    with [isinstance(_, list)]. *)
Definition list_elements (v : value) : list value :=
  match v with PList l => l | _ => [] end.

Definition pass : UI unit := ret tt.

(** Lines 166-168: one routing leg. *)
Definition routing_body (i : nat) (route : value) : UI unit :=
  if is_dict route then
    to <- get_ route "to" NA ;;
    by_ <- get_ route "by" NA ;;
    markdown [Lit "• To: "; Fmt to; Lit " | By: "; Fmt by_]
  else pass.

(** Lines 179-199: one goods row. *)
Definition goods_body (i : nat) (item : value) : UI unit :=
  if is_dict item then
    within (Expander [Lit "Item "; Fmt (PInt (Z.of_nat i + 1))] true) (
      columns 3 ;;
      within (Column 1) (
        pieces <- get_ item "No. of Pieces RCP" NA ;;
        markdown [Lit "**Pieces:** "; Fmt pieces] ;;
        gross <- get_ item "Gross Weight" NA ;;
        unit_ <- get_ item "kg/lb" (PStr EmptyString) ;;
        markdown [Lit "**Gross Weight:** "; Fmt gross; Lit " "; Fmt unit_]) ;;
      within (Column 2) (
        cw <- get_ item "Chargeable Weight" NA ;;
        markdown [Lit "**Chargeable Weight:** "; Fmt cw] ;;
        rate <- get_ item "Rate" NA ;;
        markdown [Lit "**Rate:** "; Fmt rate]) ;;
      within (Column 3) (
        charge <- get_ item "Charge" NA ;;
        markdown [Lit "**Charge:** "; Fmt charge] ;;
        total <- get_ item "Total" NA ;;
        markdown [Lit "**Total:** "; Fmt total]) ;;
      rc <- get_ item "Rate Class / Commodity Item No." NA ;;
      markdown [Lit "**Rate Class/Commodity:** "; Fmt rc] ;;
      nature <-
        get_ item "Nature and Quantity of Goods (incl. Dimensions or Volume)" NA ;;
      text_area [Lit "Nature and Quantity of Goods "; Fmt (PInt (Z.of_nat i + 1))]
        nature 100 false (Some [Lit "goods_"; Fmt (PInt (Z.of_nat i))]))
  else pass.

(** Lines 211-241: one charges record.  The three sub-records are read in
    the first column and used again in the second. *)
Definition charges_body (charge_detail : value) : UI unit :=
  if is_dict charge_detail then
    columns 2 ;;
    read <- within (Column 1) (
      markdown [Lit "**Prepaid Charges:**"] ;;
      weight_charge <- get_ charge_detail "Weight Charge" (PDict []) ;;
      (if is_dict weight_charge then
         v <- get_ weight_charge "Prepaid" NA ;;
         markdown [Lit "• Weight Charge: "; Fmt v]
       else pass) ;;
      val_charge <- get_ charge_detail "Valuation Charge" (PDict []) ;;
      (if is_dict val_charge then
         v <- get_ val_charge "Prepaid" NA ;;
         markdown [Lit "• Valuation Charge: "; Fmt v]
       else pass) ;;
      tax_charge <- get_ charge_detail "Tax" (PDict []) ;;
      (if is_dict tax_charge then
         v <- get_ tax_charge "Prepaid" NA ;;
         markdown [Lit "• Tax: "; Fmt v]
       else pass) ;;
      total <- get_ charge_detail "Total Prepaid" NA ;;
      markdown [Lit "**Total Prepaid:** "; Fmt total] ;;
      ret (weight_charge, val_charge, tax_charge)) ;;
    let '(weight_charge, val_charge, tax_charge) := read in
    within (Column 2) (
      markdown [Lit "**Collect Charges:**"] ;;
      (if is_dict weight_charge then
         v <- get_ weight_charge "Collect" NA ;;
         markdown [Lit "• Weight Charge: "; Fmt v]
       else pass) ;;
      (if is_dict val_charge then
         v <- get_ val_charge "Collect" NA ;;
         markdown [Lit "• Valuation Charge: "; Fmt v]
       else pass) ;;
      (if is_dict tax_charge then
         v <- get_ tax_charge "Collect" NA ;;
         markdown [Lit "• Tax: "; Fmt v]
       else pass) ;;
      total <- get_ charge_detail "Total Collect" NA ;;
      markdown [Lit "**Total Collect:** "; Fmt total])
  else pass.

(** Lines 265-268, and again 270-273 with the other field: a text box
    labelled with the field's name, shown when the field is truthy and its
    [strip()] is truthy. *)
Definition optional_box (data : value) (field : string) : UI unit :=
  v1 <- get_ data field PNone ;;
  shown <-
    (if truthy v1 then
       v2 <- get_ data field PNone ;;
       stripped <- lift (strip v2) ;;
       ret (truthy stripped)
     else ret false) ;;
  if (shown : bool) then
    v3 <- get_ data field NA ;;
    text_area [Lit field] v3 60 true None
  else pass.

(** Lines 117-130: "Basic Information Section". *)
Definition basic_information (data : value) : UI unit :=
  within Container (
    markdown [Lit "### 📄 Document Details"] ;;
    columns 2 ;;
    within (Column 1) (
      v <- get_ data "Air Waybill Number" NA ;;
      markdown [Lit "**Air Waybill Number:** `"; Fmt v; Lit "`"] ;;
      v <- get_ data "Flight/Date" NA ;;
      markdown [Lit "**Flight/Date:** "; Fmt v] ;;
      v <- get_ data "Currency Code" NA ;;
      markdown [Lit "**Currency Code:** "; Fmt v]) ;;
    within (Column 2) (
      v <- get_ data
             "Airport of Departure (Addr. of First Carrier) and Requested Routing" NA ;;
      markdown [Lit "**Airport of Departure:** "; Fmt v] ;;
      v <- get_ data "Airport of Destination" NA ;;
      markdown [Lit "**Airport of Destination:** "; Fmt v] ;;
      v <- get_ data "Agent's IATA Code" NA ;;
      markdown [Lit "**Agent's IATA Code:** "; Fmt v])).

(** Lines 134-148: "Parties Information". *)
Definition parties_information (data : value) : UI unit :=
  columns 2 ;;
  within (Column 1) (
    markdown [Lit "### 📤 Shipper Information"] ;;
    v <- get_ data "Shipper's Name and Address" NA ;;
    text_area [Lit "Shipper's Name and Address"] v 100 false None ;;
    v <- get_ data "Shipper's Account Number" NA ;;
    markdown [Lit "**Account Number:** "; Fmt v]) ;;
  within (Column 2) (
    markdown [Lit "### 📥 Consignee Information"] ;;
    v <- get_ data "Consignee's Name and Address" NA ;;
    text_area [Lit "Consignee's Name and Address"] v 100 false None).

(** Lines 152-170: "Agent and Routing Information". *)
Definition agent_and_routing (data : value) : UI unit :=
  markdown [Lit "### 🏢 Agent & Routing Details"] ;;
  columns 2 ;;
  within (Column 1) (
    v <- get_ data "Issuing Carrier's Agent Name and City" NA ;;
    markdown [Lit "**Issuing Carrier's Agent:** "; Fmt v] ;;
    v <- get_ data "Issued by" NA ;;
    markdown [Lit "**Issued by:** "; Fmt v] ;;
    v <- get_ data "Account No" NA ;;
    markdown [Lit "**Account No:** "; Fmt v]) ;;
  within (Column 2) (
    routing_data <- get_ data "Routing and Destination" (PList []) ;;
    if truthy routing_data && is_list routing_data then
      markdown [Lit "**Routing Information:**"] ;;
      for_enumerate routing_body 0 (list_elements routing_data)
    else
      markdown [Lit "**Routing Information:** N/A"]).

(** Lines 174-201: "Goods Description". *)
Definition goods_description (data : value) : UI unit :=
  markdown [Lit "### 📦 Goods Description"] ;;
  goods_data <- get_ data "Goods Description Table Rows" (PList []) ;;
  if truthy goods_data && is_list goods_data then
    for_enumerate goods_body 0 (list_elements goods_data)
  else
    info [Lit "No goods description data available"].

(** Lines 205-243: "Charges Details". *)
Definition charges_details (data : value) : UI unit :=
  markdown [Lit "### 💰 Charges Details"] ;;
  charges_data <- get_ data "Charges Details" (PList []) ;;
  if truthy charges_data && is_list charges_data then
    for_each charges_body (list_elements charges_data)
  else
    info [Lit "No charges details available"].

(** Lines 247-258: "Declaration and Insurance". *)
Definition declarations_and_insurance (data : value) : UI unit :=
  markdown [Lit "### 📋 Declarations & Insurance"] ;;
  columns 3 ;;
  within (Column 1) (
    v <- get_ data "Declared Value for Carriage" NA ;;
    markdown [Lit "**Declared Value for Carriage:** "; Fmt v]) ;;
  within (Column 2) (
    v <- get_ data "Declared Value for Customs" NA ;;
    markdown [Lit "**Declared Value for Customs:** "; Fmt v]) ;;
  within (Column 3) (
    v <- get_ data "Amount of Insurance" NA ;;
    markdown [Lit "**Amount of Insurance:** "; Fmt v]).

(** Lines 262-273: "Additional Information". *)
Definition additional_information (data : value) : UI unit :=
  markdown [Lit "### ℹ️ Additional Information"] ;;
  optional_box data "Handling Information" ;;
  optional_box data "Accounting Information".

(** Lines 275-285: "Signatures and Execution". *)
Definition signatures_and_execution (data : value) : UI unit :=
  markdown [Lit "### ✍️ Signatures & Execution"] ;;
  columns 2 ;;
  within (Column 1) (
    v <- get_ data "Executed on (date)" NA ;;
    markdown [Lit "**Executed on:** "; Fmt v] ;;
    v <- get_ data "at (place)" NA ;;
    markdown [Lit "**At (place):** "; Fmt v]) ;;
  within (Column 2) (
    v <- get_ data "Signature of Shipper of his Agent" NA ;;
    markdown [Lit "**Shipper/Agent Signature:** "; Fmt v] ;;
    v <- get_ data "Signature of Issuing Carrier or its Agent" NA ;;
    markdown [Lit "**Carrier/Agent Signature:** "; Fmt v]).

(** Lines 108-285: the sections in the order of the source, with the
    rules between them. *)
Definition display_awb_data (data : value) : UI unit :=
  markdown [Lit "---"] ;;
  markdown [Lit "## 📋 Air Waybill Information"] ;;
  basic_information data ;;
  markdown [Lit "---"] ;;
  parties_information data ;;
  markdown [Lit "---"] ;;
  agent_and_routing data ;;
  markdown [Lit "---"] ;;
  goods_description data ;;
  markdown [Lit "---"] ;;
  charges_details data ;;
  markdown [Lit "---"] ;;
  declarations_and_insurance data ;;
  markdown [Lit "---"] ;;
  additional_information data ;;
  signatures_and_execution data.

(** *** The handler of the "Extract Information" button *)

(** [r'\{.*\}'] *)
Definition awb_pattern : Re.pattern :=
  [Re.One (Re.Literal "{"); Re.Star Re.Dot; Re.One (Re.Literal "}")].

(** [re.search(r'\{.*\}', response_text, re.DOTALL)], then [group(0)] of the
    match.  [re.search] raises [TypeError] on an object that is not a string
    (message of CPython 3.11 and later). *)
Definition json_match (response_text : value) : result (option string) :=
  match response_text with
  | PStr s => Ok (Re.search true awb_pattern s)
  | _ =>
      Raise (mkException "TypeError"
        ("expected string or bytes-like object, got '"
           ++ type_name response_text ++ "'"))
  end.

(** Lines 331-350: what is shown for a decoded record. *)
Definition show_record (w : World) (show_raw_json download_json : bool)
    (elapsed_time : value) (data : value) : UI unit :=
  success [Lit "✅ Extraction Complete!"] ;;
  info [Lit "⏱️ **Processing Time:** "; FmtSpec elapsed_time ".2f"; Lit " seconds"] ;;
  (if download_json then
     markdown [Lit "---"] ;;
     json_str_for_download <- lift (json_dumps w data 2) ;;
     number <- get_ data "Air Waybill Number" (PStr "unknown") ;;
     download_button "📥 Download JSON Data" json_str_for_download
       [Lit "awb_data_"; Fmt number; Lit ".json"] "application/json"
   else pass) ;;
  display_awb_data data ;;
  if show_raw_json then
    markdown [Lit "---"] ;;
    markdown [Lit "### 🔍 Raw JSON Data"] ;;
    within (Expander [Lit "Click to view raw JSON"] false) (json data)
  else pass.

(** Lines 352-357: no match. *)
Definition show_no_json (elapsed_time response_text : value) : UI unit :=
  error [Lit "Failed to parse the response as JSON. The model did not return a valid JSON object."] ;;
  info [Lit "⏱️ **Attempted in:** "; FmtSpec elapsed_time ".2f"; Lit " seconds"] ;;
  text_area [Lit "Raw Model Response"] response_text 200 false None.

(** Lines 358-361: the [except Exception as e] branch. *)
Definition show_exception (response_text : value) (e : Exception) : UI unit :=
  error [Lit "An unexpected error occurred: "; Fmt (PStr (exc_msg e))] ;;
  text_area [Lit "Raw Model Response"] response_text 200 false None.

(** Lines 325-357: the body of the [try]. *)
Definition parse_and_show (w : World) (show_raw_json download_json : bool)
    (elapsed_time response_text : value) : UI unit :=
  m <- lift (json_match response_text) ;;
  match m with
  | Some json_str =>
      data <- lift (json_loads w json_str) ;;
      show_record w show_raw_json download_json elapsed_time data
  | None => show_no_json elapsed_time response_text
  end.

(** Lines 324-361. *)
Definition handle_response (w : World) (show_raw_json download_json : bool)
    (elapsed_time response_text : value) : UI unit :=
  try_except
    (parse_and_show w show_raw_json download_json elapsed_time response_text)
    (show_exception response_text).

(** Lines 305-368: one press of the button.  [uploaded_file] is [None] or
    the bytes of the uploaded file. *)
Definition on_extract (w : World) (uploaded_file : option (list byte))
    (api_key : string) (show_raw_json download_json : bool)
    (elapsed_time : value) : UI unit :=
  match uploaded_file with
  | Some pdf_bytes =>
      if truthy (PStr api_key) then
        within (Spinner "Processing PDF and extracting data... This may take a moment. ⏳") (
          let response_text := snd (extract_awb_data w pdf_bytes api_key) in
          handle_response w show_raw_json download_json elapsed_time response_text)
      else warning [Lit "Please enter your Google AI API Key in the sidebar."]
  | None =>
      if negb (truthy (PStr api_key))
      then warning [Lit "Please enter your Google AI API Key in the sidebar."]
      else warning [Lit "Please upload a PDF file."]
  end.

End Main.

(* ================================================================== *)
(** ** Vocabulary of the statements *)
(* ================================================================== *)

Module Spec.
Import Py Run St Main.

(** Does the character occur in the text? *)
Fixpoint occurs (c : ascii) (s : string) : bool :=
  match s with
  | EmptyString => false
  | String c' s' => Ascii.eqb c' c || occurs c s'
  end.

(** The text from the first occurrence of [c] on. *)
Fixpoint from_first (c : ascii) (s : string) : option string :=
  match s with
  | EmptyString => None
  | String c' s' => if Ascii.eqb c' c then Some s else from_first c s'
  end.

(** The text up to the last occurrence of [c], that occurrence included. *)
Fixpoint upto_last (c : ascii) (s : string) : option string :=
  match s with
  | EmptyString => None
  | String c' s' =>
      match upto_last c s' with
      | Some m => Some (String c' m)
      | None => if Ascii.eqb c' c then Some (String c' EmptyString) else None
      end
  end.

(** The span in the words of the specification: it begins at the first
    opening brace of the text and ends at the last closing brace. *)
Definition brace_span (text : string) : option string :=
  match from_first "{" text with
  | Some t => upto_last "}" t
  | None => None
  end.

(** An opening brace with a closing brace somewhere after it. *)
Definition brace_pair (text : string) : Prop :=
  exists i j, i < j /\ String.get i text = Some "{"%char
              /\ String.get j text = Some "}"%char.

(** [.strip()] can be called on the field: it is absent, falsy (the [and]
    stops before the call) or a string. *)
Definition strip_safe (d : items) (field : string) : bool :=
  match items_lookup d field with
  | None => true
  | Some v => negb (truthy v) || match v with PStr _ => true | _ => false end
  end.

(** The element shows the placeholder under the caption: a markdown line
    [caption{'N/A'}...] or a text area labelled [caption] holding ['N/A']. *)
Definition shows_placeholder (caption : string) (e : element) : bool :=
  match e with
  | Markdown (Lit c :: Fmt (PStr s) :: _) =>
      String.eqb c caption && String.eqb s "N/A"
  | TextArea [Lit c] (PStr s) _ _ _ =>
      String.eqb c caption && String.eqb s "N/A"
  | _ => false
  end.

Definition placeholder_shown (caption : string) (page : list element) : bool :=
  existsb (shows_placeholder caption) page.

(** Is the element a text area with this label? *)
Definition is_box (label : string) (e : element) : bool :=
  match e with
  | TextArea [Lit c] _ _ _ _ => String.eqb c label
  | _ => false
  end.

(** The scalar fields [display_awb_data] reads with the default ['N/A'] and
    shows unconditionally, each with the caption it is shown under. *)
Definition scalar_fields : list (string * string) :=
  [ ("Air Waybill Number", "**Air Waybill Number:** `");
    ("Flight/Date", "**Flight/Date:** ");
    ("Currency Code", "**Currency Code:** ");
    ("Airport of Departure (Addr. of First Carrier) and Requested Routing",
     "**Airport of Departure:** ");
    ("Airport of Destination", "**Airport of Destination:** ");
    ("Agent's IATA Code", "**Agent's IATA Code:** ");
    ("Shipper's Name and Address", "Shipper's Name and Address");
    ("Shipper's Account Number", "**Account Number:** ");
    ("Consignee's Name and Address", "Consignee's Name and Address");
    ("Issuing Carrier's Agent Name and City", "**Issuing Carrier's Agent:** ");
    ("Issued by", "**Issued by:** ");
    ("Account No", "**Account No:** ");
    ("Declared Value for Carriage", "**Declared Value for Carriage:** ");
    ("Declared Value for Customs", "**Declared Value for Customs:** ");
    ("Amount of Insurance", "**Amount of Insurance:** ");
    ("Executed on (date)", "**Executed on:** ");
    ("at (place)", "**At (place):** ");
    ("Signature of Shipper of his Agent", "**Shipper/Agent Signature:** ");
    ("Signature of Issuing Carrier or its Agent", "**Carrier/Agent Signature:** ") ].

(** What the backend returns when an exception reaches its handler. *)
Definition error_text (e : Exception) : value :=
  PStr ("An error occurred: " ++ exc_msg e).

(** The library calls made up to a step, that step included. *)
Definition calls_until (s : step) : list step :=
  match s with
  | Rasterize => [Rasterize]
  | EncodePNG => [Rasterize; EncodePNG]
  | MakeClient => [Rasterize; EncodePNG; MakeClient]
  | MakePart => [Rasterize; EncodePNG; MakeClient; MakePart]
  | Generate => [Rasterize; EncodePNG; MakeClient; MakePart; Generate]
  | ReadText => [Rasterize; EncodePNG; MakeClient; MakePart; Generate; ReadText]
  end.

(** An internal step of [extract_awb_data] raises: the steps before it
    returned, and the step raises [e]; an empty page list makes the function
    itself raise its [ValueError]. *)
Inductive raises_at (w : World) (pdf_bytes : list byte) (api_key : string)
  : step -> Exception -> Prop :=
| raises_rasterize e :
    convert_from_bytes w pdf_bytes = Raise e ->
    raises_at w pdf_bytes api_key Rasterize e
| raises_no_page :
    convert_from_bytes w pdf_bytes = Ok [] ->
    raises_at w pdf_bytes api_key Rasterize
      (ValueError "Could not convert PDF to image. The file might be corrupted or empty.")
| raises_encode page rest e :
    convert_from_bytes w pdf_bytes = Ok (page :: rest) ->
    save_png w page = Raise e ->
    raises_at w pdf_bytes api_key EncodePNG e
| raises_client page rest img e :
    convert_from_bytes w pdf_bytes = Ok (page :: rest) ->
    save_png w page = Ok img ->
    genai_Client w api_key = Raise e ->
    raises_at w pdf_bytes api_key MakeClient e
| raises_part page rest img c e :
    convert_from_bytes w pdf_bytes = Ok (page :: rest) ->
    save_png w page = Ok img ->
    genai_Client w api_key = Ok c ->
    Part_from_bytes w img "image/png" = Raise e ->
    raises_at w pdf_bytes api_key MakePart e
| raises_generate page rest img c p e :
    convert_from_bytes w pdf_bytes = Ok (page :: rest) ->
    save_png w page = Ok img ->
    genai_Client w api_key = Ok c ->
    Part_from_bytes w img "image/png" = Ok p ->
    generate_content w c "models/gemini-2.5-flash" p prompt = Raise e ->
    raises_at w pdf_bytes api_key Generate e
| raises_text page rest img c p r e :
    convert_from_bytes w pdf_bytes = Ok (page :: rest) ->
    save_png w page = Ok img ->
    genai_Client w api_key = Ok c ->
    Part_from_bytes w img "image/png" = Ok p ->
    generate_content w c "models/gemini-2.5-flash" p prompt = Ok r ->
    response_text w r = Raise e ->
    raises_at w pdf_bytes api_key ReadText e.

(** The error text of a failed rasterization does not parse into a record:
    it has no brace span, or [json.loads] rejects the span. *)
Definition not_a_record (w : World) (e : Exception) : Prop :=
  forall span, json_match (error_text e) = Ok (Some span) ->
               exists e', json_loads w span = Raise e'.

(** A horizontal rule. *)
Definition rule : element := Markdown [Lit "---"].

(** The elements a record puts on the page. *)
Definition page (d : items) : list element :=
  elements (display_awb_data (PDict d)).

(** What a routing leg that is a dict shows. *)
Definition leg_line (r : items) : element :=
  Markdown [Lit "• To: "; Fmt (items_get r "to" NA);
            Lit " | By: "; Fmt (items_get r "by" NA)].

(** What the goods row at index [i] shows when it is a dict. *)
Definition goods_row (i : nat) (r : items) : list element :=
  [ Columns 3;
    Markdown [Lit "**Pieces:** "; Fmt (items_get r "No. of Pieces RCP" NA)];
    Markdown [Lit "**Gross Weight:** "; Fmt (items_get r "Gross Weight" NA);
              Lit " "; Fmt (items_get r "kg/lb" (PStr EmptyString))];
    Markdown [Lit "**Chargeable Weight:** "; Fmt (items_get r "Chargeable Weight" NA)];
    Markdown [Lit "**Rate:** "; Fmt (items_get r "Rate" NA)];
    Markdown [Lit "**Charge:** "; Fmt (items_get r "Charge" NA)];
    Markdown [Lit "**Total:** "; Fmt (items_get r "Total" NA)];
    Markdown [Lit "**Rate Class/Commodity:** ";
              Fmt (items_get r "Rate Class / Commodity Item No." NA)];
    TextArea [Lit "Nature and Quantity of Goods "; Fmt (PInt (Z.of_nat i + 1))]
      (items_get r "Nature and Quantity of Goods (incl. Dimensions or Volume)" NA)
      100 false (Some [Lit "goods_"; Fmt (PInt (Z.of_nat i))]) ].

(** One line of a charges record: shown when the sub-record is a dict. *)
Definition charge_line (caption : string) (sub : value) (side : string)
  : list element :=
  match sub with
  | PDict s => [Markdown [Lit caption; Fmt (items_get s side NA)]]
  | _ => []
  end.

(** What a charges record that is a dict shows. *)
Definition charges_record (c : items) : list element :=
  let weight_charge := items_get c "Weight Charge" (PDict []) in
  let val_charge := items_get c "Valuation Charge" (PDict []) in
  let tax_charge := items_get c "Tax" (PDict []) in
  [Columns 2; Markdown [Lit "**Prepaid Charges:**"]]
  ++ charge_line "• Weight Charge: " weight_charge "Prepaid"
  ++ charge_line "• Valuation Charge: " val_charge "Prepaid"
  ++ charge_line "• Tax: " tax_charge "Prepaid"
  ++ [Markdown [Lit "**Total Prepaid:** "; Fmt (items_get c "Total Prepaid" NA)];
      Markdown [Lit "**Collect Charges:**"]]
  ++ charge_line "• Weight Charge: " weight_charge "Collect"
  ++ charge_line "• Valuation Charge: " val_charge "Collect"
  ++ charge_line "• Tax: " tax_charge "Collect"
  ++ [Markdown [Lit "**Total Collect:** "; Fmt (items_get c "Total Collect" NA)]].

(** The rows of a list section: the dicts show their rows, in order and
    under their index in the list; every other element shows nothing. *)
Definition conforming_rows (row : nat -> items -> list element)
    (l : list value) : list element :=
  flat_map (fun ix => match snd ix with
                      | PDict r => row (fst ix) r
                      | _ => []
                      end)
           (combine (seq 0 (List.length l)) l).

(** Is the value a list with at least one element? *)
Definition nonempty_list (v : value) : bool := truthy v && is_list v.

(** *** Worlds for the examples *)

(** A decoder that knows the listed texts and rejects every other one. *)
Definition table_loads (table : list (string * value)) (s : string) : result value :=
  match find (fun kv => String.eqb (fst kv) s) table with
  | Some (_, v) => Ok v
  | None =>
      Raise (mkException "JSONDecodeError"
               "Expecting property name enclosed in double quotes: line 1 column 2 (char 1)")
  end.

(** A world in which rasterization gives [pages], the remote call gives
    [reply] (the text of the response, or an exception), and the decoder and
    the encoder are the ones given. *)
Definition stub_world (pages : result (list unit)) (reply : result value)
    (loads : string -> result value) (dumps : value -> Z -> result string) : World :=
  {| image := unit; client := unit; part := unit; response := value;
     convert_from_bytes := fun _ => pages;
     save_png := fun _ => Ok [];
     genai_Client := fun _ => Ok tt;
     Part_from_bytes := fun _ _ => Ok tt;
     generate_content := fun _ _ _ _ => reply;
     response_text := fun r => Ok r;
     json_loads := loads;
     json_dumps := dumps |}.

(** 1.5 seconds. *)
Definition one_and_a_half : value := PFloat (S754_finite false 3 (-1)).

Definition newline : string := String "010"%char EmptyString.

(** The reply of the end-to-end scenario of the specification, without its
    outer braces, and the record it decodes to. *)
Definition sample_fields : string :=
  dq "~Air Waybill Number~: ~020-12345678~, ~Routing and Destination~: [{~to~: ~JFK~, ~by~: ~AA~}]".

Definition sample_reply : string := "{" ++ sample_fields ++ "}".

Definition sample_record : items :=
  [ ("Air Waybill Number", PStr "020-12345678");
    ("Routing and Destination",
     PList [PDict [("to", PStr "JFK"); ("by", PStr "AA")]]) ].

(** [json.dumps(sample_record, indent=2)] *)
Definition sample_pretty : string :=
  dq "{
  ~Air Waybill Number~: ~020-12345678~,
  ~Routing and Destination~: [
    {
      ~to~: ~JFK~,
      ~by~: ~AA~
    }
  ]
}".

(** Bytes that are no PDF, and a world whose rasterizer fails on them with
    a message that ends in a pair of braces. *)
Definition not_a_pdf : list byte := [x25; x50; x44; x46].

Definition braces_in_message : World :=
  stub_world
    (Raise (mkException "PDFPageCountError"
              ("Unable to get page count." ++ newline ++ "{}")))
    (Ok PNone)
    (table_loads [("{}", PDict [])])
    (fun _ _ => Ok "{}").

(** A world whose remote call is refused. *)
Definition quota_exceeded : World :=
  stub_world (Ok [tt])
    (Raise (mkException "ClientError" "429 RESOURCE_EXHAUSTED"))
    (table_loads []) (fun _ _ => Ok "{}").

(** A world whose model answers [reply] and whose [json] module knows the
    sample record. *)
Definition sample_world (reply : string) : World :=
  stub_world (Ok [tt]) (Ok (PStr reply))
    (table_loads [(sample_reply, PDict sample_record)])
    (fun _ _ => Ok sample_pretty).

End Spec.

(* ================================================================== *)
(** ** The page script around the handler *)
(* ================================================================== *)

Module Script.
Import Py Run Run.Notations St Main.

(** Lines 288-305: what the script puts on the page before and around the
    handler.  The widgets return the state the session holds for them. *)
Inductive shown : Type :=
| PageConfig (page_title page_icon layout : string)   (* st.set_page_config *)
| Title (body : string)                               (* st.title *)
| Write (body : string)                               (* st.write *)
| SidebarHeader (body : string)                       (* st.header, in the sidebar *)
| SidebarCheckbox (label : string) (value : bool)     (* st.checkbox, in the sidebar *)
| FileUploader (label type : string)                  (* st.file_uploader *)
| Button (label : string)                             (* st.button *)
| Body (p : placed).                                  (* an element of the handler *)

(** One run of the script: the state of the widgets, the secret store's
    answer for ["GOOGLE_API_KEY"], and the time the backend call takes. *)
Record Session : Type := mkSession {
  show_raw_json_box : option bool;      (* None: the box was never touched *)
  download_json_box : option bool;
  uploaded_file : option (list byte);   (* None: no file chosen *)
  secret : result string;               (* st.secrets["GOOGLE_API_KEY"] *)
  clicked : bool;                       (* st.button(...) on this run *)
  elapsed_time : value
}.

(** [st.checkbox(label, value=default)] in the sidebar. *)
Definition checkbox (label : string) (default : bool) (state : option bool)
  : run shown bool :=
  let v := match state with Some b => b | None => default end in
  bind (emit (SidebarCheckbox label default)) (fun _ => ret v).

(** The elements of the handler, as part of the script's page. *)
Definition body {A} (m : UI A) : run shown A := (map Body (fst m), snd m).

(** Lines 287-303: what every run shows before the secret is read. *)
Definition preamble : list shown :=
  [ PageConfig "Air Waybill Extractor" "📄" "wide";
    Title "📄 Air Waybill Information Extractor";
    Write "Upload an Air Waybill in PDF format to extract its contents into a structured, readable format.";
    SidebarHeader "Display Options";
    SidebarCheckbox "Show Raw JSON" false;
    SidebarCheckbox "Enable JSON Download" true;
    FileUploader "Choose an Air Waybill PDF file" "pdf" ].

(** The value of a checkbox: its state, or its default when untouched. *)
Definition checked (default : bool) (state : option bool) : bool :=
  match state with Some b => b | None => default end.

(** Lines 288-368. *)
Definition script (w : World) (s : Session) : run shown unit :=
  emit (PageConfig "Air Waybill Extractor" "📄" "wide") ;;
  emit (Title "📄 Air Waybill Information Extractor") ;;
  emit (Write "Upload an Air Waybill in PDF format to extract its contents into a structured, readable format.") ;;
  emit (SidebarHeader "Display Options") ;;
  show_raw_json <- checkbox "Show Raw JSON" false (show_raw_json_box s) ;;
  download_json <- checkbox "Enable JSON Download" true (download_json_box s) ;;
  emit (FileUploader "Choose an Air Waybill PDF file" "pdf") ;;
  api_key <- lift (secret s) ;;
  emit (Button "✨ Extract Information") ;;
  if clicked s then
    body (on_extract w (uploaded_file s) api_key show_raw_json download_json
            (elapsed_time s))
  else ret tt.

End Script.

(* ================================================================== *)
(** ** More vocabulary *)
(* ================================================================== *)

Module Terms.
Import Py Run St Main Spec.

(** The keys [display_awb_data] reads from the record. *)
Definition keys_read : list string :=
  [ "Air Waybill Number"; "Flight/Date"; "Currency Code";
    "Airport of Departure (Addr. of First Carrier) and Requested Routing";
    "Airport of Destination"; "Agent's IATA Code";
    "Shipper's Name and Address"; "Shipper's Account Number";
    "Consignee's Name and Address";
    "Issuing Carrier's Agent Name and City"; "Issued by"; "Account No";
    "Routing and Destination"; "Goods Description Table Rows"; "Charges Details";
    "Declared Value for Carriage"; "Declared Value for Customs";
    "Amount of Insurance";
    "Handling Information"; "Accounting Information";
    "Executed on (date)"; "at (place)";
    "Signature of Shipper of his Agent";
    "Signature of Issuing Carrier or its Agent" ].

(** The keys read inside a routing leg, a goods row, a charges record and
    a charge sub-record. *)
Definition leg_keys : list string := ["to"; "by"].

Definition goods_row_keys : list string :=
  [ "No. of Pieces RCP"; "Gross Weight"; "kg/lb"; "Chargeable Weight"; "Rate";
    "Charge"; "Total"; "Rate Class / Commodity Item No.";
    "Nature and Quantity of Goods (incl. Dimensions or Volume)" ].

Definition charges_record_keys : list string :=
  ["Weight Charge"; "Valuation Charge"; "Tax"; "Total Prepaid"; "Total Collect"].

Definition charge_keys : list string := ["Prepaid"; "Collect"].

Definition nested_keys_read : list string :=
  leg_keys ++ goods_row_keys ++ charges_record_keys ++ charge_keys.

(** Two records agree on the keys listed. *)
Definition same_on (keys : list string) (d1 d2 : items) : Prop :=
  forall k, In k keys -> items_lookup d1 k = items_lookup d2 k.

(** The element shows the value under the caption. *)
Definition shows_value (caption : string) (v : value) (e : element) : Prop :=
  match e with
  | Markdown (Lit c :: Fmt v' :: _) => c = caption /\ v' = v
  | TextArea [Lit c] v' _ _ _ => c = caption /\ v' = v
  | _ => False
  end.

(** The kinds of element the renderer uses. *)
Definition render_kind (e : element) : bool :=
  match e with
  | Markdown _ | TextArea _ _ _ _ _ | Info _ | Columns _ => true
  | _ => false
  end.

Definition is_error (e : element) : bool :=
  match e with Error _ => true | _ => false end.

Definition is_success (e : element) : bool :=
  match e with Success _ => true | _ => false end.

Definition is_warning (e : element) : bool :=
  match e with Warning _ => true | _ => false end.

Definition is_download (e : element) : bool :=
  match e with DownloadButton _ _ _ _ => true | _ => false end.

Definition is_json (e : element) : bool :=
  match e with Json _ => true | _ => false end.

(** The optional text box of a field is shown: the field is a string with
    something else than white space in it. *)
Definition box_shown (d : items) (field : string) : bool :=
  match items_lookup d field with
  | Some (PStr s) => negb (String.eqb (str_strip s) EmptyString)
  | _ => false
  end.

(** The labels and the keys of the text areas of a page, in order. *)
Definition text_area_labels (page : list element) : list fstring :=
  flat_map (fun e => match e with TextArea l _ _ _ _ => [l] | _ => [] end) page.

Definition text_area_keys (page : list element) : list fstring :=
  flat_map (fun e => match e with TextArea _ _ _ _ (Some k) => [k] | _ => [] end) page.

(** The text area that shows the raw response. *)
Definition raw_response_box (response_text : value) : element :=
  TextArea [Lit "Raw Model Response"] response_text 200 false None.

(** Is [needle] a piece of [s]? *)
Fixpoint contains (needle s : string) : bool :=
  String.prefix needle s
  || match s with
     | String _ s' => contains needle s'
     | EmptyString => false
     end.

(** The key as the prompt writes it: between double quotes. *)
Definition quoted (key : string) : string :=
  String "034"%char (key ++ String "034"%char EmptyString).

(** Lines 196-200: the label and the widget key of the text area of the
    goods row at index [i]. *)
Definition goods_label (i : nat) : fstring :=
  [Lit "Nature and Quantity of Goods "; Fmt (PInt (Z.of_nat i + 1))].

Definition goods_key (i : nat) : fstring :=
  [Lit "goods_"; Fmt (PInt (Z.of_nat i))].

Definition no_text_area (e : element) : bool :=
  match e with TextArea _ _ _ _ _ => false | _ => true end.

Definition is_text_area (e : element) : bool := negb (no_text_area e).

(** The indices of the dicts of a list, counted from [n]. *)
Fixpoint dict_indices (n : nat) (l : list value) : list nat :=
  match l with
  | [] => []
  | PDict _ :: l' => n :: dict_indices (S n) l'
  | _ :: l' => dict_indices (S n) l'
  end.

(** The indices of the goods rows shown for a record. *)
Definition goods_indices (d : items) : list nat :=
  dict_indices 0 (list_elements (items_get d "Goods Description Table Rows" (PList []))).

(** The labels of the optional boxes shown for a record. *)
Definition box_labels (d : items) : list fstring :=
  (if box_shown d "Handling Information" then [[Lit "Handling Information"]] else [])
  ++ (if strip_safe d "Handling Information" && box_shown d "Accounting Information"
      then [[Lit "Accounting Information"]] else []).

(** An error message, or the text area of the raw response. *)
Definition noise (e : element) : bool :=
  is_error e || is_box "Raw Model Response" e.

(** The world in which the rasterizer hands over the first page only. *)
Definition first_page_only (w : World) : World :=
  {| image := image w; client := client w; part := part w;
     response := response w;
     convert_from_bytes := fun pdf_bytes =>
       match convert_from_bytes w pdf_bytes with
       | Ok (page :: _) => Ok [page]
       | r => r
       end;
     save_png := save_png w;
     genai_Client := genai_Client w;
     Part_from_bytes := Part_from_bytes w;
     generate_content := generate_content w;
     response_text := response_text w;
     json_loads := json_loads w;
     json_dumps := json_dumps w |}.

(** A world whose model's response has no text. *)
Definition no_text_world : World :=
  stub_world (Ok [tt]) (Ok PNone) (table_loads []) (fun _ _ => Ok "{}").

(** The two warnings of the handler. *)
Definition key_warning : element :=
  Warning [Lit "Please enter your Google AI API Key in the sidebar."].

Definition upload_warning : element :=
  Warning [Lit "Please upload a PDF file."].

End Terms.

(* ================================================================== *)
(** ** The span selected by the parser *)
(* ================================================================== *)

Module ReFacts.
Import Py Run St Main Spec.

Local Open Scope string_scope.

Local Abbreviation closing := (Re.match_here true [Re.One (Re.Literal "}")]).
Local Abbreviation any := (Re.accepts true Re.Dot).

Lemma closing_eq (s : string) :
  closing s =
  match s with
  | String c _ => if Ascii.eqb "}" c then Some (String c EmptyString) else None
  | EmptyString => None
  end.
Proof.
  destruct s as [|c s']; [reflexivity|].
  cbn. destruct (Ascii.eqb "}" c); reflexivity.
Qed.

(** The greedy star followed by the closing brace stops at the last one. *)
Lemma star_upto_last (s : string) :
  Re.star_greedy any closing s = upto_last "}" s.
Proof.
  induction s as [|c s' IH].
  - reflexivity.
  - cbn [Re.star_greedy upto_last]. change (any c) with true. cbv iota.
    rewrite IH. destruct (upto_last "}" s'); [reflexivity|].
    rewrite closing_eq, Ascii.eqb_sym. reflexivity.
Qed.

Lemma match_here_awb (s : string) :
  Re.match_here true awb_pattern s =
  match s with
  | String c s' =>
      if Ascii.eqb "{" c then option_map (String c) (upto_last "}" s') else None
  | EmptyString => None
  end.
Proof.
  destruct s as [|c s']; [reflexivity|].
  unfold awb_pattern. cbn [Re.match_here Re.accepts].
  destruct (Ascii.eqb "{" c); [|reflexivity].
  rewrite star_upto_last. reflexivity.
Qed.

Lemma upto_last_none (c : ascii) (s : string) :
  upto_last c s = None <-> occurs c s = false.
Proof.
  induction s as [|c' s' IH]; cbn.
  - tauto.
  - destruct (upto_last c s') eqn:E.
    + split; [discriminate|]. intros H. apply orb_false_iff in H.
      destruct H as [_ H]. apply IH in H. discriminate.
    + destruct (Ascii.eqb c' c); cbn; [split; discriminate|].
      split; intros _; [apply IH|]; reflexivity.
Qed.

Lemma upto_last_app (c : ascii) (mid post : string) :
  occurs c post = false ->
  upto_last c (mid ++ String c post) = Some (mid ++ String c EmptyString).
Proof.
  intros Hpost. induction mid as [|c' mid' IH]; cbn.
  - apply upto_last_none in Hpost. rewrite Hpost, Ascii.eqb_refl. reflexivity.
  - rewrite IH. reflexivity.
Qed.

Lemma upto_last_suffix (c : ascii) (a b : string) :
  upto_last c (a ++ b) = None -> upto_last c b = None.
Proof.
  induction a as [|c' a' IH]; cbn; [tauto|].
  destruct (upto_last c (a' ++ b)); [discriminate|]. intros _. now apply IH.
Qed.

Lemma from_first_some (c : ascii) (s t : string) :
  from_first c s = Some t ->
  exists pre rest, s = pre ++ String c rest /\ t = String c rest.
Proof.
  induction s as [|c' s' IH]; cbn; [discriminate|].
  destruct (Ascii.eqb_spec c' c) as [->|Hc].
  - intros [= <-]. now exists EmptyString, s'.
  - intros H. destruct (IH H) as (pre & rest & -> & ->).
    now exists (String c' pre), rest.
Qed.

(** The matcher run on [r'\{.*\}'] computes the span of the specification,
    on every text. *)
Lemma search_brace_span (text : string) :
  Re.search true awb_pattern text = brace_span text.
Proof.
  unfold brace_span.
  induction text as [|c s' IH].
  - reflexivity.
  - cbn [Re.search from_first]. rewrite match_here_awb, Ascii.eqb_sym.
    destruct (Ascii.eqb_spec c "{") as [->|Hc].
    + cbn [upto_last]. destruct (upto_last "}" s') eqn:E; cbn; [reflexivity|].
      rewrite IH. destruct (from_first "{" s') as [t|] eqn:F; [|reflexivity].
      destruct (from_first_some _ _ _ F) as (pre & rest & -> & ->).
      now apply upto_last_suffix in E.
    + exact IH.
Qed.

Lemma from_first_app (c : ascii) (pre rest : string) :
  occurs c pre = false ->
  from_first c (pre ++ String c rest) = Some (String c rest).
Proof.
  induction pre as [|c' pre' IH]; cbn.
  - now rewrite Ascii.eqb_refl.
  - intros H. apply orb_false_iff in H. destruct H as [-> H]. now apply IH.
Qed.

(** On a text cut at its first opening and last closing brace, the match
    is the piece between the cuts, braces included. *)
Lemma search_decomposed (pre mid post : string) :
  occurs "{" pre = false -> occurs "}" post = false ->
  Re.search true awb_pattern (pre ++ String "{" (mid ++ String "}" post))
  = Some (String "{" (mid ++ String "}" EmptyString)).
Proof.
  intros Hpre Hpost. rewrite search_brace_span. unfold brace_span.
  rewrite from_first_app by assumption.
  cbn [upto_last]. rewrite upto_last_app by assumption. reflexivity.
Qed.

Lemma occurs_get (c : ascii) (s : string) :
  occurs c s = true <-> exists i, String.get i s = Some c.
Proof.
  induction s as [|c' s' IH]; cbn.
  - split; [discriminate|]. intros [[|i] H]; discriminate.
  - rewrite orb_true_iff, IH. split.
    + intros [H|[i H]].
      * apply Ascii.eqb_eq in H. subst. now exists 0.
      * now exists (S i).
    + intros [[|i] H]; cbn in H.
      * left. injection H as ->. apply Ascii.eqb_refl.
      * right. now exists i.
Qed.

Lemma split_first (c : ascii) (s : string) (i : nat) :
  String.get i s = Some c ->
  exists pre rest, s = pre ++ String c rest /\ occurs c pre = false
                   /\ String.length pre <= i.
Proof.
  revert i. induction s as [|c' s' IH]; intros i H.
  - destruct i; discriminate.
  - destruct (Ascii.eqb_spec c' c) as [->|Hc].
    + exists EmptyString, s'. cbn. repeat split. lia.
    + destruct i as [|i]; cbn in H; [congruence|].
      destruct (IH i H) as (pre & rest & -> & Hpre & Hlen).
      exists (String c' pre), rest. cbn. repeat split.
      * apply orb_false_iff. split; [|assumption].
        now apply Ascii.eqb_neq.
      * lia.
Qed.

Lemma split_last (c : ascii) (s : string) :
  occurs c s = true ->
  exists mid post, s = mid ++ String c post /\ occurs c post = false.
Proof.
  induction s as [|c' s' IH]; cbn; [discriminate|].
  destruct (occurs c s') eqn:E.
  - intros _. destruct (IH eq_refl) as (mid & post & -> & Hpost).
    now exists (String c' mid), post.
  - rewrite orb_false_r. intros H. apply Ascii.eqb_eq in H. subst c'.
    now exists EmptyString, s'.
Qed.

Lemma get_app_right (a b : string) (j : nat) :
  String.length a <= j -> String.get j (a ++ b) = String.get (j - String.length a) b.
Proof.
  revert j. induction a as [|c a' IH]; intros j H; cbn.
  - now rewrite Nat.sub_0_r.
  - destruct j as [|j]; cbn in *; [lia|]. apply IH. lia.
Qed.

(** A brace pair cuts the text at its first opening and last closing brace. *)
Lemma brace_pair_decompose (text : string) :
  brace_pair text ->
  exists pre mid post,
    text = pre ++ String "{" (mid ++ String "}" post)
    /\ occurs "{" pre = false /\ occurs "}" post = false.
Proof.
  intros (i & j & Hij & Hi & Hj).
  destruct (split_first _ _ _ Hi) as (pre & rest & -> & Hpre & Hlen).
  assert (Hr : occurs "}" rest = true).
  { apply occurs_get. exists (j - String.length pre - 1).
    rewrite get_app_right in Hj by lia.
    destruct (j - String.length pre) as [|k] eqn:E; [lia|].
    cbn in Hj. cbn. now rewrite Nat.sub_0_r. }
  destruct (split_last _ _ Hr) as (mid & post & -> & Hpost).
  now exists pre, mid, post.
Qed.

Lemma get_app_at (a : string) (c : ascii) (b : string) :
  String.get (String.length a) (a ++ String c b) = Some c.
Proof. induction a; cbn; auto. Qed.

Lemma decomposed_brace_pair (pre mid post : string) :
  brace_pair (pre ++ String "{" (mid ++ String "}" post)).
Proof.
  exists (String.length pre), (String.length pre + S (String.length mid)).
  split; [lia|]. split.
  - apply get_app_at.
  - rewrite get_app_right by lia.
    replace (_ + _ - _) with (S (String.length mid)) by lia.
    cbn. apply get_app_at.
Qed.

(** No brace pair, no match. *)
Lemma search_no_pair (text : string) :
  ~ brace_pair text -> Re.search true awb_pattern text = None.
Proof.
  intros Hno. rewrite search_brace_span. unfold brace_span.
  destruct (from_first "{" text) as [t|] eqn:F; [|reflexivity].
  destruct (upto_last "}" t) as [m|] eqn:U; [|reflexivity].
  exfalso. apply Hno.
  destruct (from_first_some _ _ _ F) as (pre & rest & -> & ->).
  assert (Hr : occurs "}" rest = true).
  { destruct (occurs "}" (String "{" rest)) eqn:E; [exact E|].
    apply upto_last_none in E. congruence. }
  destruct (split_last _ _ Hr) as (mid & post & -> & _).
  apply decomposed_brace_pair.
Qed.

End ReFacts.

(* ================================================================== *)
(** ** Facts about the page script *)
(* ================================================================== *)

Module UIFacts.
Import Py Run Run.Notations St Main Spec.

Lemma events_bind {E A B} (m : run E A) (k : A -> run E B) :
  events (bind m k) =
  events m ++ match outcome m with Ok a => events (k a) | Raise _ => [] end.
Proof.
  destruct m as [ev [a|e]]; cbn.
  - destruct (k a); reflexivity.
  - now rewrite app_nil_r.
Qed.

Lemma outcome_bind {E A B} (m : run E A) (k : A -> run E B) :
  outcome (bind m k) =
  match outcome m with Ok a => outcome (k a) | Raise e => Raise e end.
Proof.
  destruct m as [ev [a|e]]; cbn; [|reflexivity].
  destruct (k a); reflexivity.
Qed.

Lemma elements_bind {A B} (m : UI A) (k : A -> UI B) :
  elements (bind m k) =
  elements m ++ match outcome m with Ok a => elements (k a) | Raise _ => [] end.
Proof.
  unfold elements. rewrite events_bind, map_app.
  destruct (outcome m); reflexivity.
Qed.

Lemma elements_within {A} (b : block) (m : UI A) :
  elements (within b m) = elements m.
Proof.
  unfold elements, within, events. cbn. rewrite map_map. reflexivity.
Qed.

Lemma outcome_within {A} (b : block) (m : UI A) :
  outcome (within b m) = outcome m.
Proof. reflexivity. Qed.

(** A loop whose body never raises runs to its end. *)
Lemma for_enumerate_ok {E A} (body : nat -> A -> run E unit) :
  (forall i x, outcome (body i x) = Ok tt) ->
  forall l i, outcome (for_enumerate body i l) = Ok tt.
Proof.
  intros Hbody l. induction l as [|x l' IH]; intros i; cbn [for_enumerate].
  - reflexivity.
  - rewrite outcome_bind, Hbody. apply IH.
Qed.

Lemma for_enumerate_elements {A} (body : nat -> A -> UI unit) :
  (forall i x, outcome (body i x) = Ok tt) ->
  forall l i,
    elements (for_enumerate body i l) =
    flat_map (fun ix => elements (body (fst ix) (snd ix)))
             (combine (seq i (List.length l)) l).
Proof.
  intros Hbody l. induction l as [|x l' IH]; intros i; cbn [for_enumerate].
  - reflexivity.
  - rewrite elements_bind, Hbody, IH. reflexivity.
Qed.

Lemma items_get_absent (d : items) (k : string) (v : value) :
  items_lookup d k = None -> items_get d k v = v.
Proof. unfold items_get. now intros ->. Qed.

Lemma items_get_present (d : items) (k : string) (v x : value) :
  items_lookup d k = Some x -> items_get d k v = x.
Proof. unfold items_get. now intros ->. Qed.

Lemma bind_ret {E A B} (a : A) (k : A -> run E B) : bind (ret a) k = k a.
Proof. unfold bind, ret. destruct (k a). reflexivity. Qed.

Lemma bind_lift_ok {E A B} (a : A) (k : A -> run E B) :
  bind (lift (Ok a)) k = k a.
Proof. apply bind_ret. Qed.

Lemma bind_lift_raise {E A B} (e : Exception) (k : A -> run E B) :
  bind (lift (Raise e)) k = ([], Raise e).
Proof. reflexivity. Qed.

Lemma get_dict (d : items) k v : get_ (PDict d) k v = ret (items_get d k v).
Proof. reflexivity. Qed.

Lemma outcome_st e : outcome (st e) = Ok tt. Proof. reflexivity. Qed.
Lemma elements_st e : elements (st e) = [e]. Proof. reflexivity. Qed.
Lemma outcome_ret {E A} (a : A) : outcome (@ret E A a) = Ok a. Proof. reflexivity. Qed.
Lemma elements_ret {A} (a : A) : elements (@ret placed A a) = []. Proof. reflexivity. Qed.
Lemma outcome_lift {E A} (r : result A) : outcome (@lift E A r) = r. Proof. reflexivity. Qed.
Lemma elements_lift {A} (r : result A) : elements (@lift placed A r) = []. Proof. reflexivity. Qed.

Ltac ui_step :=
  first
    [ rewrite outcome_bind | rewrite elements_bind
    | rewrite outcome_within | rewrite elements_within
    | rewrite get_dict | rewrite bind_ret
    | rewrite outcome_st | rewrite elements_st
    | rewrite outcome_ret | rewrite elements_ret
    | rewrite outcome_lift | rewrite elements_lift ].
Ltac ui := unfold markdown, info, columns, text_area, pass in *; repeat (ui_step; cbv beta iota).

(** *** The loop bodies never raise *)

Lemma routing_body_ok (i : nat) (route : value) :
  outcome (routing_body i route) = Ok tt.
Proof. destruct route; reflexivity. Qed.

Lemma goods_body_ok (i : nat) (item : value) :
  outcome (goods_body i item) = Ok tt.
Proof. destruct item; reflexivity. Qed.

Lemma charges_body_ok (charge_detail : value) :
  outcome (charges_body charge_detail) = Ok tt.
Proof.
  destruct charge_detail as [| | | | | |c]; try reflexivity.
  cbn -[items_get].
  destruct (items_get c "Weight Charge" (PDict [])),
           (items_get c "Valuation Charge" (PDict [])),
           (items_get c "Tax" (PDict [])); reflexivity.
Qed.

(** *** The sections *)

Lemma basic_information_ok d : outcome (basic_information (PDict d)) = Ok tt.
Proof. reflexivity. Qed.
Lemma parties_information_ok d : outcome (parties_information (PDict d)) = Ok tt.
Proof. reflexivity. Qed.
Lemma declarations_and_insurance_ok d : outcome (declarations_and_insurance (PDict d)) = Ok tt.
Proof. reflexivity. Qed.
Lemma signatures_and_execution_ok d : outcome (signatures_and_execution (PDict d)) = Ok tt.
Proof. reflexivity. Qed.

Lemma agent_and_routing_ok d : outcome (agent_and_routing (PDict d)) = Ok tt.
Proof.
  unfold agent_and_routing. ui.
  destruct (truthy _ && is_list _); ui.
  - apply for_enumerate_ok, routing_body_ok.
  - reflexivity.
Qed.

Lemma goods_description_ok d : outcome (goods_description (PDict d)) = Ok tt.
Proof.
  unfold goods_description. ui.
  destruct (truthy _ && is_list _); ui.
  - apply for_enumerate_ok, goods_body_ok.
  - reflexivity.
Qed.

Lemma charges_details_ok d : outcome (charges_details (PDict d)) = Ok tt.
Proof.
  unfold charges_details. ui.
  destruct (truthy _ && is_list _); ui.
  - apply for_enumerate_ok. intros _. apply charges_body_ok.
  - reflexivity.
Qed.

Lemma optional_box_absent d f :
  items_lookup d f = None -> optional_box (PDict d) f = ([], Ok tt).
Proof.
  intros H. unfold optional_box. rewrite !get_dict, bind_ret.
  rewrite (items_get_absent _ _ _ H). reflexivity.
Qed.

Lemma optional_box_safe d f :
  strip_safe d f = true -> outcome (optional_box (PDict d) f) = Ok tt.
Proof.
  unfold strip_safe. destruct (items_lookup d f) as [v|] eqn:E.
  - intros H. unfold optional_box. rewrite !get_dict, bind_ret.
    rewrite !(items_get_present _ _ _ _ E).
    destruct (truthy v) eqn:T.
    + destruct v as [| | | |s| |]; try discriminate. cbn.
      destruct (String.eqb (str_strip s) EmptyString); reflexivity.
    + reflexivity.
  - intros _. now rewrite optional_box_absent.
Qed.

Lemma optional_box_unsafe d f :
  strip_safe d f = false ->
  exists v, items_lookup d f = Some v
            /\ optional_box (PDict d) f = ([], Raise (AttributeError v "strip")).
Proof.
  unfold strip_safe. destruct (items_lookup d f) as [v|] eqn:E; [|discriminate].
  intros H. exists v. split; [reflexivity|].
  unfold optional_box. rewrite !get_dict, bind_ret.
  rewrite !(items_get_present _ _ _ _ E).
  apply orb_false_iff in H. destruct H as [T S]. apply negb_false_iff in T.
  rewrite T. destruct v; try discriminate; reflexivity.
Qed.

Lemma display_elements d :
  elements (display_awb_data (PDict d)) =
  [rule; Markdown [Lit "## 📋 Air Waybill Information"]]
  ++ elements (basic_information (PDict d))
  ++ [rule] ++ elements (parties_information (PDict d))
  ++ [rule] ++ elements (agent_and_routing (PDict d))
  ++ [rule] ++ elements (goods_description (PDict d))
  ++ [rule] ++ elements (charges_details (PDict d))
  ++ [rule] ++ elements (declarations_and_insurance (PDict d))
  ++ [rule] ++ elements (additional_information (PDict d))
  ++ match outcome (additional_information (PDict d)) with
     | Ok _ => elements (signatures_and_execution (PDict d))
     | Raise _ => []
     end.
Proof.
  unfold display_awb_data, rule, markdown.
  repeat (first [ rewrite elements_bind | rewrite elements_st | rewrite outcome_st
                | rewrite basic_information_ok | rewrite parties_information_ok
                | rewrite agent_and_routing_ok | rewrite goods_description_ok
                | rewrite charges_details_ok | rewrite declarations_and_insurance_ok ];
          cbv beta iota).
  reflexivity.
Qed.

Lemma display_outcome d :
  outcome (display_awb_data (PDict d)) = outcome (additional_information (PDict d)).
Proof.
  unfold display_awb_data, markdown.
  repeat (first [ rewrite outcome_bind | rewrite outcome_st
                | rewrite basic_information_ok | rewrite parties_information_ok
                | rewrite agent_and_routing_ok | rewrite goods_description_ok
                | rewrite charges_details_ok | rewrite declarations_and_insurance_ok
                | rewrite signatures_and_execution_ok ];
          cbv beta iota).
  destruct (outcome (additional_information (PDict d))) as [[]|]; reflexivity.
Qed.

(** *** What the list sections show *)

Lemma routing_body_elements (i : nat) (v : value) :
  elements (routing_body i v) =
  match v with PDict r => [leg_line r] | _ => [] end.
Proof. destruct v; reflexivity. Qed.

Lemma goods_body_elements (i : nat) (v : value) :
  elements (goods_body i v) =
  match v with PDict r => goods_row i r | _ => [] end.
Proof. destruct v; reflexivity. Qed.

Lemma charges_body_elements (v : value) :
  elements (charges_body v) =
  match v with PDict c => charges_record c | _ => [] end.
Proof.
  destruct v as [| | | | | |c]; try reflexivity.
  unfold charges_record. cbn -[items_get].
  destruct (items_get c "Weight Charge" (PDict [])),
           (items_get c "Valuation Charge" (PDict [])),
           (items_get c "Tax" (PDict [])); reflexivity.
Qed.

Lemma flat_map_pointwise {A B} (f g : A -> list B) (l : list A) :
  (forall x, f x = g x) -> flat_map f l = flat_map g l.
Proof. intros H. induction l; cbn; congruence. Qed.

Lemma routing_loop_elements (l : list value) :
  elements (for_enumerate routing_body 0 l) = conforming_rows (fun _ r => [leg_line r]) l.
Proof.
  rewrite (for_enumerate_elements _ routing_body_ok). unfold conforming_rows.
  apply flat_map_pointwise. intros [i v]. apply routing_body_elements.
Qed.

Lemma goods_loop_elements (l : list value) :
  elements (for_enumerate goods_body 0 l) = conforming_rows goods_row l.
Proof.
  rewrite (for_enumerate_elements _ goods_body_ok). unfold conforming_rows.
  apply flat_map_pointwise. intros [i v]. apply goods_body_elements.
Qed.

Lemma charges_loop_elements (l : list value) :
  elements (for_each charges_body l) = conforming_rows (fun _ => charges_record) l.
Proof.
  unfold for_each.
  rewrite (for_enumerate_elements (fun _ => charges_body) (fun _ => charges_body_ok)).
  unfold conforming_rows.
  apply flat_map_pointwise. intros [i v]. apply charges_body_elements.
Qed.

Lemma agent_and_routing_elements d :
  elements (agent_and_routing (PDict d)) =
  [ Markdown [Lit "### 🏢 Agent & Routing Details"]; Columns 2;
    Markdown [Lit "**Issuing Carrier's Agent:** ";
              Fmt (items_get d "Issuing Carrier's Agent Name and City" NA)];
    Markdown [Lit "**Issued by:** "; Fmt (items_get d "Issued by" NA)];
    Markdown [Lit "**Account No:** "; Fmt (items_get d "Account No" NA)] ]
  ++ (let routing_data := items_get d "Routing and Destination" (PList []) in
      if nonempty_list routing_data
      then Markdown [Lit "**Routing Information:**"]
           :: conforming_rows (fun _ r => [leg_line r]) (list_elements routing_data)
      else [Markdown [Lit "**Routing Information:** N/A"]]).
Proof.
  unfold agent_and_routing, nonempty_list. ui. cbn [app]. cbv zeta.
  do 5 f_equal.
  destruct (truthy _ && is_list _); ui; [|reflexivity].
  now rewrite routing_loop_elements.
Qed.

Lemma goods_description_elements d :
  elements (goods_description (PDict d)) =
  Markdown [Lit "### 📦 Goods Description"]
  :: (let goods_data := items_get d "Goods Description Table Rows" (PList []) in
      if nonempty_list goods_data
      then conforming_rows goods_row (list_elements goods_data)
      else [Info [Lit "No goods description data available"]]).
Proof.
  unfold goods_description, nonempty_list. ui. cbn [app]. cbv zeta.
  f_equal.
  destruct (truthy _ && is_list _); ui; [|reflexivity].
  apply goods_loop_elements.
Qed.

Lemma charges_details_elements d :
  elements (charges_details (PDict d)) =
  Markdown [Lit "### 💰 Charges Details"]
  :: (let charges_data := items_get d "Charges Details" (PList []) in
      if nonempty_list charges_data
      then conforming_rows (fun _ => charges_record) (list_elements charges_data)
      else [Info [Lit "No charges details available"]]).
Proof.
  unfold charges_details, nonempty_list. ui. cbn [app]. cbv zeta.
  f_equal.
  destruct (truthy _ && is_list _); ui; [|reflexivity].
  apply charges_loop_elements.
Qed.

(** A dict in a list section is on the page with its rows. *)
Lemma conforming_rows_incl (row : nat -> items -> list element)
    (l : list value) (i : nat) (r : items) :
  nth_error l i = Some (PDict r) -> incl (row i r) (conforming_rows row l).
Proof.
  unfold conforming_rows. change i with (0 + i) at 2. generalize 0. revert i.
  induction l as [|x l' IH]; intros i n H.
  - destruct i; discriminate.
  - cbn [List.length seq combine flat_map]. destruct i as [|i]; cbn in H.
    + injection H as ->. cbn. rewrite Nat.add_0_r.
      intros e He. apply in_or_app. now left.
    + intros e He. apply in_or_app. right.
      apply (IH i (S n) H). now rewrite Nat.add_succ_comm.
Qed.

(** *** Where the sections stand on the page *)

Lemma page_sections d :
  page d =
  [rule; Markdown [Lit "## 📋 Air Waybill Information"]]
  ++ elements (basic_information (PDict d))
  ++ [rule] ++ elements (parties_information (PDict d))
  ++ [rule] ++ elements (agent_and_routing (PDict d))
  ++ [rule] ++ elements (goods_description (PDict d))
  ++ [rule] ++ elements (charges_details (PDict d))
  ++ [rule] ++ elements (declarations_and_insurance (PDict d))
  ++ [rule] ++ elements (additional_information (PDict d))
  ++ match outcome (additional_information (PDict d)) with
     | Ok _ => elements (signatures_and_execution (PDict d))
     | Raise _ => []
     end.
Proof. apply display_elements. Qed.

Lemma additional_information_outcome d :
  outcome (additional_information (PDict d)) =
  if strip_safe d "Handling Information" && strip_safe d "Accounting Information"
  then Ok tt
  else match outcome (optional_box (PDict d) "Handling Information") with
       | Ok _ => outcome (optional_box (PDict d) "Accounting Information")
       | Raise e => Raise e
       end.
Proof.
  unfold additional_information. ui.
  destruct (strip_safe d "Handling Information") eqn:H1.
  - rewrite (optional_box_safe _ _ H1). cbn [andb].
    destruct (strip_safe d "Accounting Information") eqn:H2; [|reflexivity].
    now rewrite (optional_box_safe _ _ H2).
  - reflexivity.
Qed.

Lemma display_ok_iff d :
  outcome (display_awb_data (PDict d)) = Ok tt <->
  strip_safe d "Handling Information" = true
  /\ strip_safe d "Accounting Information" = true.
Proof.
  rewrite display_outcome, additional_information_outcome.
  destruct (strip_safe d "Handling Information") eqn:H1.
  - destruct (strip_safe d "Accounting Information") eqn:H2; cbn [andb].
    + tauto.
    + rewrite (optional_box_safe _ _ H1).
      destruct (optional_box_unsafe _ _ H2) as (v & _ & ->). cbn.
      split; [discriminate|intros [_ ?]; discriminate].
  - cbn [andb]. destruct (optional_box_unsafe _ _ H1) as (v & _ & ->). cbn.
    split; [discriminate|intros [? _]; discriminate].
Qed.

Lemma in_basic d e :
  In e (elements (basic_information (PDict d))) -> In e (page d).
Proof. intros H. rewrite page_sections. rewrite !in_app_iff. tauto. Qed.
Lemma in_parties d e :
  In e (elements (parties_information (PDict d))) -> In e (page d).
Proof. intros H. rewrite page_sections. rewrite !in_app_iff. tauto. Qed.
Lemma in_agent d e :
  In e (elements (agent_and_routing (PDict d))) -> In e (page d).
Proof. intros H. rewrite page_sections. rewrite !in_app_iff. tauto. Qed.
Lemma in_goods d e :
  In e (elements (goods_description (PDict d))) -> In e (page d).
Proof. intros H. rewrite page_sections. rewrite !in_app_iff. tauto. Qed.
Lemma in_charges d e :
  In e (elements (charges_details (PDict d))) -> In e (page d).
Proof. intros H. rewrite page_sections. rewrite !in_app_iff. tauto. Qed.
Lemma in_declarations d e :
  In e (elements (declarations_and_insurance (PDict d))) -> In e (page d).
Proof. intros H. rewrite page_sections. rewrite !in_app_iff. tauto. Qed.
Lemma in_signatures d e :
  outcome (display_awb_data (PDict d)) = Ok tt ->
  In e (elements (signatures_and_execution (PDict d))) -> In e (page d).
Proof.
  intros Hok H. rewrite display_outcome in Hok.
  rewrite page_sections, Hok. rewrite !in_app_iff. tauto.
Qed.

Lemma shown_within (caption : string) (part pg : list element) :
  (forall e, In e part -> In e pg) ->
  placeholder_shown caption part = true -> placeholder_shown caption pg = true.
Proof.
  intros Hsub H. apply existsb_exists in H. destruct H as (e & He & Hs).
  apply existsb_exists. exists e. auto.
Qed.

Ltac show_placeholder Habs :=
  rewrite ?agent_and_routing_elements;
  cbn -[items_get conforming_rows nonempty_list];
  rewrite (items_get_absent _ _ NA Habs);
  cbn -[items_get conforming_rows nonempty_list];
  rewrite ?orb_true_r; reflexivity.

Lemma scalar_placeholders d :
  outcome (display_awb_data (PDict d)) = Ok tt ->
  forall key caption,
    In (key, caption) scalar_fields -> items_lookup d key = None ->
    placeholder_shown caption (page d) = true.
Proof.
  intros Hok key caption Hin Habs.
  unfold scalar_fields in Hin. cbn [In] in Hin.
  repeat (destruct Hin as [Hin|Hin]; [injection Hin as <- <-|]); [..|contradiction].
  all: first
    [ solve [apply (shown_within _ _ _ (in_basic d)); show_placeholder Habs]
    | solve [apply (shown_within _ _ _ (in_parties d)); show_placeholder Habs]
    | solve [apply (shown_within _ _ _ (in_agent d)); show_placeholder Habs]
    | solve [apply (shown_within _ _ _ (in_declarations d)); show_placeholder Habs]
    | solve [apply (shown_within _ _ _ (fun e => in_signatures d e Hok));
             show_placeholder Habs] ].
Qed.

End UIFacts.

(* ================================================================== *)
(** ** The response recovery parser *)
(* ================================================================== *)

Module Parser.
Import Py Run Run.Notations St Main Spec ReFacts UIFacts.
Local Open Scope string_scope.

Lemma json_match_decomposed (pre mid post : string) :
  occurs "{" pre = false -> occurs "}" post = false ->
  json_match (PStr (pre ++ "{" ++ mid ++ "}" ++ post))
  = Ok (Some ("{" ++ mid ++ "}")).
Proof.
  intros Hpre Hpost. unfold json_match.
  change (pre ++ "{" ++ mid ++ "}" ++ post)
    with (pre ++ String "{" (mid ++ String "}" post)).
  now rewrite search_decomposed.
Qed.

(** C3. When the text has an opening brace and a closing brace somewhere
    after it, the parser selects exactly the piece of the text that begins
    at its first opening brace (none in [pre]) and ends at its last closing
    brace (none in [post]), whatever braces stand in between. *)
Theorem greedy_span_selected (text : string) :
  brace_pair text ->
  exists pre mid post,
    text = pre ++ "{" ++ mid ++ "}" ++ post
    /\ occurs "{" pre = false
    /\ occurs "}" post = false
    /\ json_match (PStr text) = Ok (Some ("{" ++ mid ++ "}")).
Proof.
  intros Hpair.
  destruct (brace_pair_decompose text Hpair) as (pre & mid & post & -> & Hpre & Hpost).
  exists pre, mid, post. repeat split; try assumption.
  now apply json_match_decomposed.
Qed.

(** On [a{b}c}d] the span runs to the second closing brace: the match is
    greedy and does not count depth. *)
Lemma greedy_span_selected_witness :
  brace_pair "a{b}c}d"
  /\ exists pre mid post,
       "a{b}c}d" = pre ++ "{" ++ mid ++ "}" ++ post
       /\ occurs "{" pre = false
       /\ occurs "}" post = false
       /\ json_match (PStr "a{b}c}d") = Ok (Some ("{" ++ mid ++ "}")).
Proof.
  assert (H : brace_pair "a{b}c}d").
  { exists 1, 3. repeat split. lia. }
  split; [exact H | exact (greedy_span_selected "a{b}c}d" H)].
Defined.

(** C4. A text with no opening brace followed later by a closing brace is
    not parsed: the handler shows the "Failed to parse" error, the time
    taken, and the raw text unchanged; nothing else is shown, so no record
    is rendered. *)
Theorem no_brace_pair_shows_raw_text (w : World)
    (show_raw_json download_json : bool) (elapsed_time : value) (text : string) :
  ~ brace_pair text ->
  handle_response w show_raw_json download_json elapsed_time (PStr text)
  = ([ mkPlaced [] (Error [Lit "Failed to parse the response as JSON. The model did not return a valid JSON object."]);
       mkPlaced [] (Info [Lit "⏱️ **Attempted in:** "; FmtSpec elapsed_time ".2f"; Lit " seconds"]);
       mkPlaced [] (TextArea [Lit "Raw Model Response"] (PStr text) 200 false None) ],
     Ok tt).
Proof.
  intros Hno. unfold handle_response, parse_and_show, json_match.
  rewrite (search_no_pair text Hno). reflexivity.
Qed.

Lemma no_brace_pair_shows_raw_text_witness :
  ~ brace_pair "I could not read this document }{"
  /\ handle_response (stub_world (Ok [tt]) (Ok PNone) (table_loads []) (fun _ _ => Ok "{}"))
       false true one_and_a_half (PStr "I could not read this document }{")
     = ([ mkPlaced [] (Error [Lit "Failed to parse the response as JSON. The model did not return a valid JSON object."]);
          mkPlaced [] (Info [Lit "⏱️ **Attempted in:** "; FmtSpec one_and_a_half ".2f"; Lit " seconds"]);
          mkPlaced [] (TextArea [Lit "Raw Model Response"]
                         (PStr "I could not read this document }{") 200 false None) ],
        Ok tt).
Proof.
  assert (H : ~ brace_pair "I could not read this document }{").
  { intros (i & j & Hij & Hi & Hj).
    do 33 (destruct i as [|i]; [try discriminate Hi|]).
    - do 33 (destruct j as [|j]; [try discriminate Hj; lia|]).
      destruct j; discriminate Hj.
    - destruct i; discriminate Hi. }
  split; [exact H|].
  exact (no_brace_pair_shows_raw_text _ false true one_and_a_half _ H).
Defined.

(** C2. When the text is one well-formed JSON object ([json.loads] accepts
    it, with value [v]) between two stretches of prose that hold no brace,
    the span extracted is that object's text, so what is decoded and shown
    is [v]: code fences and commentary around the object change nothing. *)
Theorem embedded_object_recovered (w : World)
    (show_raw_json download_json : bool) (elapsed_time : value)
    (pre mid post : string) (v : value) :
  occurs "{" pre = false -> occurs "}" pre = false ->
  occurs "{" post = false -> occurs "}" post = false ->
  json_loads w ("{" ++ mid ++ "}") = Ok v ->
  let text := pre ++ "{" ++ mid ++ "}" ++ post in
  json_match (PStr text) = Ok (Some ("{" ++ mid ++ "}"))
  /\ parse_and_show w show_raw_json download_json elapsed_time (PStr text)
     = show_record w show_raw_json download_json elapsed_time v.
Proof.
  intros Hpre _ _ Hpost Hloads text. subst text.
  pose proof (json_match_decomposed pre mid post Hpre Hpost) as Hm.
  split; [exact Hm|].
  unfold parse_and_show. rewrite Hm, bind_lift_ok, Hloads.
  apply bind_lift_ok.
Qed.

(** The fenced reply of the specification's scenario. *)
Lemma embedded_object_recovered_witness :
  let pre := "Here is the data:" ++ newline ++ "```json" ++ newline in
  let post := newline ++ "```" in
  let text := pre ++ "{" ++ sample_fields ++ "}" ++ post in
  json_loads (sample_world text) ("{" ++ sample_fields ++ "}") = Ok (PDict sample_record)
  /\ json_match (PStr text) = Ok (Some ("{" ++ sample_fields ++ "}"))
  /\ parse_and_show (sample_world text) false true one_and_a_half (PStr text)
     = show_record (sample_world text) false true one_and_a_half (PDict sample_record).
Proof.
  split; [reflexivity|].
  exact (embedded_object_recovered
           (sample_world ("Here is the data:" ++ newline ++ "```json" ++ newline
                          ++ "{" ++ sample_fields ++ "}" ++ newline ++ "```"))
           false true one_and_a_half
           ("Here is the data:" ++ newline ++ "```json" ++ newline)
           sample_fields (newline ++ "```") (PDict sample_record)
           eq_refl eq_refl eq_refl eq_refl eq_refl).
Defined.

(** C5. When the span from the first opening brace to the last closing
    brace does not decode ([json.loads] raises [e]), nothing of a record is
    shown: the handler shows the error with the decoder's message, and the
    raw text unchanged. *)
Theorem undecodable_span_shows_error (w : World)
    (show_raw_json download_json : bool) (elapsed_time : value)
    (pre mid post : string) (e : Exception) :
  occurs "{" pre = false -> occurs "}" post = false ->
  json_loads w ("{" ++ mid ++ "}") = Raise e ->
  let text := pre ++ "{" ++ mid ++ "}" ++ post in
  handle_response w show_raw_json download_json elapsed_time (PStr text)
  = ([ mkPlaced [] (Error [Lit "An unexpected error occurred: "; Fmt (PStr (exc_msg e))]);
       mkPlaced [] (TextArea [Lit "Raw Model Response"] (PStr text) 200 false None) ],
     Ok tt).
Proof.
  intros Hpre Hpost Hloads text. subst text.
  unfold handle_response, parse_and_show.
  rewrite (json_match_decomposed pre mid post Hpre Hpost).
  rewrite bind_lift_ok, Hloads, bind_lift_raise. reflexivity.
Qed.

(** An unquoted key. *)
Lemma undecodable_span_shows_error_witness :
  let text := "Result: " ++ "{" ++ "awb: 020-12345678" ++ "}" ++ " (page 1)" in
  handle_response (sample_world text) false true one_and_a_half (PStr text)
  = ([ mkPlaced [] (Error [Lit "An unexpected error occurred: ";
                           Fmt (PStr "Expecting property name enclosed in double quotes: line 1 column 2 (char 1)")]);
       mkPlaced [] (TextArea [Lit "Raw Model Response"] (PStr text) 200 false None) ],
     Ok tt).
Proof.
  exact (undecodable_span_shows_error
           (sample_world ("Result: " ++ "{" ++ "awb: 020-12345678" ++ "}" ++ " (page 1)"))
           false true one_and_a_half "Result: " "awb: 020-12345678" " (page 1)"
           (mkException "JSONDecodeError"
              "Expecting property name enclosed in double quotes: line 1 column 2 (char 1)")
           eq_refl eq_refl eq_refl).
Defined.

End Parser.

(* ================================================================== *)
(** ** The backend call *)
(* ================================================================== *)

Module Backend.
Import Py Run Run.Notations St Main Spec ReFacts UIFacts.
Local Open Scope string_scope.

(** C10. Whichever internal step raises (rasterization, the empty-pages
    check, the PNG encoding, the client, the request part, the remote call,
    reading the reply), [extract_awb_data] returns: the value is the string
    "An error occurred: " followed by the exception's message, and no step
    after the failing one is called.  The function is total: its result is
    a pair of the calls made and the value returned. *)
Theorem exception_returned_as_text (w : World) (pdf_bytes : list byte)
    (api_key : string) (s : step) (e : Exception) :
  raises_at w pdf_bytes api_key s e ->
  extract_awb_data w pdf_bytes api_key
  = (calls_until s, PStr ("An error occurred: " ++ exc_msg e)).
Proof.
  intros H. unfold extract_awb_data, extract_awb_data_try, call.
  destruct H;
    repeat match goal with
           | Heq : _ = _ |- _ => cbn [bind]; rewrite Heq; clear Heq
           end;
    reflexivity.
Qed.

Lemma exception_returned_as_text_witness :
  raises_at quota_exceeded not_a_pdf "key" Generate
    (mkException "ClientError" "429 RESOURCE_EXHAUSTED")
  /\ extract_awb_data quota_exceeded not_a_pdf "key"
     = ([Rasterize; EncodePNG; MakeClient; MakePart; Generate],
        PStr "An error occurred: 429 RESOURCE_EXHAUSTED").
Proof.
  assert (H : raises_at quota_exceeded not_a_pdf "key" Generate
                (mkException "ClientError" "429 RESOURCE_EXHAUSTED")).
  { apply (raises_generate quota_exceeded not_a_pdf "key" tt [] [] tt tt);
      reflexivity. }
  split; [exact H|].
  exact (exception_returned_as_text quota_exceeded not_a_pdf "key" Generate _ H).
Defined.

(** A rasterization that gives no page or raises ends the backend call
    at once, with the error text. *)
Lemma failed_rasterization_returns_text (w : World) (pdf_bytes : list byte)
    (api_key : string) (r : result (list (image w))) (e : Exception) :
  convert_from_bytes w pdf_bytes = r ->
  (r = Ok [] /\ e = ValueError "Could not convert PDF to image. The file might be corrupted or empty."
   \/ r = Raise e) ->
  extract_awb_data w pdf_bytes api_key = ([Rasterize], error_text e).
Proof.
  intros Hr Hcase. unfold extract_awb_data, extract_awb_data_try, call.
  rewrite Hr. destruct Hcase as [[-> ->] | ->]; reflexivity.
Qed.

Lemma elements_on_extract (w : World) (pdf_bytes : list byte) (api_key : string)
    (show_raw_json download_json : bool) (elapsed_time : value) :
  truthy (PStr api_key) = true ->
  elements (on_extract w (Some pdf_bytes) api_key show_raw_json download_json
              elapsed_time)
  = elements (handle_response w show_raw_json download_json elapsed_time
                (snd (extract_awb_data w pdf_bytes api_key))).
Proof.
  intros Hkey. unfold on_extract. rewrite Hkey. apply elements_within.
Qed.

(** C9, as the code has it.  When rasterization gives no page, or raises
    with a message whose error text does not parse into a record, the only
    library call made is the rasterization, the backend returns the error
    text, and the page shows an error and that text: no record is decoded
    or rendered. *)
Theorem failed_rasterization_is_terminal (w : World) (pdf_bytes : list byte)
    (api_key : string) (show_raw_json download_json : bool)
    (elapsed_time : value) :
  truthy (PStr api_key) = true ->
  (convert_from_bytes w pdf_bytes = Ok []
   \/ exists e, convert_from_bytes w pdf_bytes = Raise e /\ not_a_record w e) ->
  exists e,
    raises_at w pdf_bytes api_key Rasterize e
    /\ extract_awb_data w pdf_bytes api_key = ([Rasterize], error_text e)
    /\ let shown :=
         elements (on_extract w (Some pdf_bytes) api_key show_raw_json
                     download_json elapsed_time) in
       shown
       = [ Error [Lit "Failed to parse the response as JSON. The model did not return a valid JSON object."];
           Info [Lit "⏱️ **Attempted in:** "; FmtSpec elapsed_time ".2f"; Lit " seconds"];
           TextArea [Lit "Raw Model Response"] (error_text e) 200 false None ]
       \/ exists e',
            shown
            = [ Error [Lit "An unexpected error occurred: "; Fmt (PStr (exc_msg e'))];
                TextArea [Lit "Raw Model Response"] (error_text e) 200 false None ].
Proof.
  intros Hkey Hfail. cbv zeta. rewrite (elements_on_extract _ _ _ _ _ _ Hkey).
  destruct Hfail as [Hempty | (e & Hraise & Hnot)].
  - exists (ValueError "Could not convert PDF to image. The file might be corrupted or empty.").
    assert (R := raises_no_page w pdf_bytes api_key Hempty).
    rewrite (failed_rasterization_returns_text w pdf_bytes api_key _ _ Hempty
               (or_introl (conj eq_refl eq_refl))).
    split; [exact R|]. split; [reflexivity|]. left. reflexivity.
  - exists e.
    assert (R := raises_rasterize w pdf_bytes api_key e Hraise).
    rewrite (failed_rasterization_returns_text w pdf_bytes api_key _ e Hraise
               (or_intror eq_refl)).
    split; [exact R|]. split; [reflexivity|].
    cbn [snd]. unfold handle_response, parse_and_show.
    specialize (Hnot). unfold not_a_record in Hnot. fold (error_text e).
    destruct (json_match (error_text e)) as [[span|]|e0] eqn:M.
    + destruct (Hnot span eq_refl) as [e' He']. right. exists e'.
      rewrite bind_lift_ok, He', bind_lift_raise. reflexivity.
    + left. rewrite bind_lift_ok. reflexivity.
    + discriminate M.
Qed.

(** An empty page list. *)
Lemma failed_rasterization_is_terminal_witness :
  let w := stub_world (Ok []) (Ok PNone) (table_loads []) (fun _ _ => Ok "{}") in
  exists e,
    raises_at w not_a_pdf "key" Rasterize e
    /\ extract_awb_data w not_a_pdf "key" = ([Rasterize], error_text e)
    /\ let shown :=
         elements (on_extract w (Some not_a_pdf) "key" false true one_and_a_half) in
       shown
       = [ Error [Lit "Failed to parse the response as JSON. The model did not return a valid JSON object."];
           Info [Lit "⏱️ **Attempted in:** "; FmtSpec one_and_a_half ".2f"; Lit " seconds"];
           TextArea [Lit "Raw Model Response"] (error_text e) 200 false None ]
       \/ exists e',
            shown
            = [ Error [Lit "An unexpected error occurred: "; Fmt (PStr (exc_msg e'))];
                TextArea [Lit "Raw Model Response"] (error_text e) 200 false None ].
Proof.
  exact (failed_rasterization_is_terminal
           (stub_world (Ok []) (Ok PNone) (table_loads []) (fun _ _ => Ok "{}"))
           not_a_pdf "key" false true one_and_a_half eq_refl (or_introl eq_refl)).
Defined.

(** C9 as stated fails: the rasterizer raises on bytes that are no PDF, and
    the request still ends with "Extraction Complete!" and the page of a
    record (the empty one), because the error text reaches the parser and
    the braces in the message decode. *)
Lemma rasterizer_message_rendered_as_record :
  convert_from_bytes braces_in_message not_a_pdf
  = Raise (mkException "PDFPageCountError"
             ("Unable to get page count." ++ newline ++ "{}"))
  /\ extract_awb_data braces_in_message not_a_pdf "key"
     = ([Rasterize],
        PStr ("An error occurred: Unable to get page count." ++ newline ++ "{}"))
  /\ elements (on_extract braces_in_message (Some not_a_pdf) "key" false false
                 one_and_a_half)
     = Success [Lit "✅ Extraction Complete!"]
       :: Info [Lit "⏱️ **Processing Time:** "; FmtSpec one_and_a_half ".2f"; Lit " seconds"]
       :: page [].
Proof. repeat split. Qed.

End Backend.

(* ================================================================== *)
(** ** The renderer and the export *)
(* ================================================================== *)

Module Renderer.
Import Py Run Run.Notations St Main Spec ReFacts UIFacts.
Local Open Scope string_scope.

(** The page of the record that has no field at all. *)
Example page_of_empty_record :
  display_awb_data (PDict [])
  = ([ mkPlaced [] rule;
       mkPlaced [] (Markdown [Lit "## 📋 Air Waybill Information"]);
       mkPlaced [Container] (Markdown [Lit "### 📄 Document Details"]);
       mkPlaced [Container] (Columns 2);
       mkPlaced [Container; Column 1] (Markdown [Lit "**Air Waybill Number:** `"; Fmt NA; Lit "`"]);
       mkPlaced [Container; Column 1] (Markdown [Lit "**Flight/Date:** "; Fmt NA]);
       mkPlaced [Container; Column 1] (Markdown [Lit "**Currency Code:** "; Fmt NA]);
       mkPlaced [Container; Column 2] (Markdown [Lit "**Airport of Departure:** "; Fmt NA]);
       mkPlaced [Container; Column 2] (Markdown [Lit "**Airport of Destination:** "; Fmt NA]);
       mkPlaced [Container; Column 2] (Markdown [Lit "**Agent's IATA Code:** "; Fmt NA]);
       mkPlaced [] rule;
       mkPlaced [] (Columns 2);
       mkPlaced [Column 1] (Markdown [Lit "### 📤 Shipper Information"]);
       mkPlaced [Column 1] (TextArea [Lit "Shipper's Name and Address"] NA 100 false None);
       mkPlaced [Column 1] (Markdown [Lit "**Account Number:** "; Fmt NA]);
       mkPlaced [Column 2] (Markdown [Lit "### 📥 Consignee Information"]);
       mkPlaced [Column 2] (TextArea [Lit "Consignee's Name and Address"] NA 100 false None);
       mkPlaced [] rule;
       mkPlaced [] (Markdown [Lit "### 🏢 Agent & Routing Details"]);
       mkPlaced [] (Columns 2);
       mkPlaced [Column 1] (Markdown [Lit "**Issuing Carrier's Agent:** "; Fmt NA]);
       mkPlaced [Column 1] (Markdown [Lit "**Issued by:** "; Fmt NA]);
       mkPlaced [Column 1] (Markdown [Lit "**Account No:** "; Fmt NA]);
       mkPlaced [Column 2] (Markdown [Lit "**Routing Information:** N/A"]);
       mkPlaced [] rule;
       mkPlaced [] (Markdown [Lit "### 📦 Goods Description"]);
       mkPlaced [] (Info [Lit "No goods description data available"]);
       mkPlaced [] rule;
       mkPlaced [] (Markdown [Lit "### 💰 Charges Details"]);
       mkPlaced [] (Info [Lit "No charges details available"]);
       mkPlaced [] rule;
       mkPlaced [] (Markdown [Lit "### 📋 Declarations & Insurance"]);
       mkPlaced [] (Columns 3);
       mkPlaced [Column 1] (Markdown [Lit "**Declared Value for Carriage:** "; Fmt NA]);
       mkPlaced [Column 2] (Markdown [Lit "**Declared Value for Customs:** "; Fmt NA]);
       mkPlaced [Column 3] (Markdown [Lit "**Amount of Insurance:** "; Fmt NA]);
       mkPlaced [] rule;
       mkPlaced [] (Markdown [Lit "### ℹ️ Additional Information"]);
       mkPlaced [] (Markdown [Lit "### ✍️ Signatures & Execution"]);
       mkPlaced [] (Columns 2);
       mkPlaced [Column 1] (Markdown [Lit "**Executed on:** "; Fmt NA]);
       mkPlaced [Column 1] (Markdown [Lit "**At (place):** "; Fmt NA]);
       mkPlaced [Column 2] (Markdown [Lit "**Shipper/Agent Signature:** "; Fmt NA]);
       mkPlaced [Column 2] (Markdown [Lit "**Carrier/Agent Signature:** "; Fmt NA]) ],
     Ok tt).
Proof. reflexivity. Qed.

(** C1 as stated fails on the record with no field: the renderer reads
    'Handling Information' and 'Accounting Information', finds neither, and
    shows no placeholder for them; no text area of either name is on the
    page. *)
Lemma absent_handling_shows_no_placeholder :
  items_lookup [] "Handling Information" = None
  /\ placeholder_shown "Handling Information" (page []) = false
  /\ existsb (is_box "Handling Information") (page []) = false
  /\ items_lookup [] "Accounting Information" = None
  /\ placeholder_shown "Accounting Information" (page []) = false
  /\ existsb (is_box "Accounting Information") (page []) = false.
Proof. repeat split. Qed.

Lemma in_page_routing d l :
  items_lookup d "Routing and Destination" = Some (PList l) ->
  incl (conforming_rows (fun _ r => [leg_line r]) l) (page d).
Proof.
  intros H e He. apply in_agent. rewrite agent_and_routing_elements.
  rewrite (items_get_present _ _ _ _ H). apply in_or_app. right. cbv zeta.
  destruct l as [|x l']; [destruct He|].
  right. exact He.
Qed.

Lemma in_page_goods d l :
  items_lookup d "Goods Description Table Rows" = Some (PList l) ->
  incl (conforming_rows goods_row l) (page d).
Proof.
  intros H e He. apply in_goods. rewrite goods_description_elements.
  rewrite (items_get_present _ _ _ _ H). cbv zeta.
  destruct l as [|x l']; [destruct He|].
  right. exact He.
Qed.

Lemma in_page_charges d l :
  items_lookup d "Charges Details" = Some (PList l) ->
  incl (conforming_rows (fun _ => charges_record) l) (page d).
Proof.
  intros H e He. apply in_charges. rewrite charges_details_elements.
  rewrite (items_get_present _ _ _ _ H). cbv zeta.
  destruct l as [|x l']; [destruct He|].
  right. exact He.
Qed.

(** C1, as the code has it.  For a record whose 'Handling Information' and
    'Accounting Information' are each absent, falsy or a string, the render
    completes without an exception and the page is complete:
    - each of the nineteen scalar fields of [scalar_fields] that is absent
      shows "N/A" under its caption;
    - an absent 'Routing and Destination' shows "Routing Information: N/A",
      absent goods rows and charges show their "No ... available" notes;
    - an absent 'Handling Information' or 'Accounting Information' shows
      nothing: its text box is left out;
    - a routing leg, goods row or charges record that is a dict is on the
      page with the lines of [leg_line], [goods_row], [charges_record], in
      which an absent key reads as "N/A" ('kg/lb' as the empty string, an
      absent charge sub-record as the empty dict). *)
Theorem placeholders_for_absent_fields (d : items) :
  strip_safe d "Handling Information" = true ->
  strip_safe d "Accounting Information" = true ->
  outcome (display_awb_data (PDict d)) = Ok tt
  /\ (forall key caption,
        In (key, caption) scalar_fields -> items_lookup d key = None ->
        placeholder_shown caption (page d) = true)
  /\ (items_lookup d "Routing and Destination" = None ->
      In (Markdown [Lit "**Routing Information:** N/A"]) (page d))
  /\ (items_lookup d "Goods Description Table Rows" = None ->
      In (Info [Lit "No goods description data available"]) (page d))
  /\ (items_lookup d "Charges Details" = None ->
      In (Info [Lit "No charges details available"]) (page d))
  /\ (forall field,
        field = "Handling Information" \/ field = "Accounting Information" ->
        items_lookup d field = None ->
        optional_box (PDict d) field = ([], Ok tt))
  /\ (forall l i r,
        items_lookup d "Routing and Destination" = Some (PList l) ->
        nth_error l i = Some (PDict r) -> In (leg_line r) (page d))
  /\ (forall l i r,
        items_lookup d "Goods Description Table Rows" = Some (PList l) ->
        nth_error l i = Some (PDict r) -> incl (goods_row i r) (page d))
  /\ (forall l i c,
        items_lookup d "Charges Details" = Some (PList l) ->
        nth_error l i = Some (PDict c) -> incl (charges_record c) (page d))
  /\ (forall (r : items) key,
        items_lookup r key = None -> items_get r key NA = NA).
Proof.
  intros H1 H2.
  assert (Hok : outcome (display_awb_data (PDict d)) = Ok tt)
    by (apply display_ok_iff; split; assumption).
  repeat apply conj.
  - exact Hok.
  - exact (scalar_placeholders d Hok).
  - intros Habs. apply in_agent. rewrite agent_and_routing_elements.
    rewrite (items_get_absent _ _ _ Habs). cbn. tauto.
  - intros Habs. apply in_goods. rewrite goods_description_elements.
    rewrite (items_get_absent _ _ _ Habs). cbn. tauto.
  - intros Habs. apply in_charges. rewrite charges_details_elements.
    rewrite (items_get_absent _ _ _ Habs). cbn. tauto.
  - intros field _ Habs. now apply optional_box_absent.
  - intros l i r Hl Hi. apply (in_page_routing d l Hl).
    apply (conforming_rows_incl (fun _ r => [leg_line r]) l i r Hi). now left.
  - intros l i r Hl Hi e He. apply (in_page_goods d l Hl).
    exact (conforming_rows_incl goods_row l i r Hi e He).
  - intros l i c Hl Hi e He. apply (in_page_charges d l Hl).
    exact (conforming_rows_incl (fun _ => charges_record) l i c Hi e He).
  - intros r key. apply items_get_absent.
Qed.

(** The record of the specification's scenario: its flight is absent and
    shows "N/A"; its one routing leg shows "To: JFK | By: AA". *)
Lemma placeholders_for_absent_fields_witness :
  strip_safe sample_record "Handling Information" = true
  /\ strip_safe sample_record "Accounting Information" = true
  /\ outcome (display_awb_data (PDict sample_record)) = Ok tt
  /\ placeholder_shown "**Flight/Date:** " (page sample_record) = true
  /\ In (Markdown [Lit "• To: "; Fmt (PStr "JFK"); Lit " | By: "; Fmt (PStr "AA")])
        (page sample_record).
Proof.
  destruct (placeholders_for_absent_fields sample_record eq_refl eq_refl)
    as (Hok & Hscalar & _ & _ & _ & _ & Hleg & _).
  split; [reflexivity|]. split; [reflexivity|]. split; [exact Hok|]. split.
  - apply (Hscalar "Flight/Date"); [cbn; tauto | reflexivity].
  - exact (Hleg [PDict [("to", PStr "JFK"); ("by", PStr "AA")]] 0
                [("to", PStr "JFK"); ("by", PStr "AA")] eq_refl eq_refl).
Defined.

(** C6, at a failing input.  The model answers with the waybill number and
    a list under 'Handling Information'; the goods rows are absent.  The
    page shows the "no data" note of the goods section, and then the render
    raises [AttributeError] at the [strip()] of line 265. *)
Example goods_note_then_strip_raises :
  let d := [ ("Air Waybill Number", PStr "020-12345678");
             ("Handling Information", PList [PStr "Keep dry"]) ] in
  items_lookup d "Goods Description Table Rows" = None
  /\ In (Info [Lit "No goods description data available"]) (page d)
  /\ outcome (display_awb_data (PDict d))
     = Raise (mkException "AttributeError" "'list' object has no attribute 'strip'").
Proof. cbv zeta. repeat split. cbn. tauto. Qed.

(** C7, at a failing input.  The routing list holds a string and a dict, and
    'Accounting Information' is a number.  The string is skipped and the
    dict is shown, and then the render raises [AttributeError] at the
    [strip()] of line 270. *)
Example leg_skipped_then_strip_raises :
  let d := [ ("Routing and Destination",
              PList [PStr "JFK"; PDict [("to", PStr "LHR"); ("by", PStr "BA")]]);
             ("Accounting Information", PInt 7) ] in
  elements (agent_and_routing (PDict d))
  = [ Markdown [Lit "### 🏢 Agent & Routing Details"]; Columns 2;
      Markdown [Lit "**Issuing Carrier's Agent:** "; Fmt NA];
      Markdown [Lit "**Issued by:** "; Fmt NA];
      Markdown [Lit "**Account No:** "; Fmt NA];
      Markdown [Lit "**Routing Information:**"];
      Markdown [Lit "• To: "; Fmt (PStr "LHR"); Lit " | By: "; Fmt (PStr "BA")] ]
  /\ outcome (display_awb_data (PDict d))
     = Raise (mkException "AttributeError" "'int' object has no attribute 'strip'").
Proof. cbv zeta. split; reflexivity. Qed.

(** What follows the record's page when the raw view is asked for. *)
Lemma elements_show_record (w : World) (show_raw_json download_json : bool)
    (elapsed_time : value) (d : items) (content : string) :
  json_dumps w (PDict d) 2 = Ok content ->
  elements (show_record w show_raw_json download_json elapsed_time (PDict d))
  = ([ Success [Lit "✅ Extraction Complete!"];
       Info [Lit "⏱️ **Processing Time:** "; FmtSpec elapsed_time ".2f"; Lit " seconds"] ]
     ++ (if download_json
         then [ rule;
                DownloadButton "📥 Download JSON Data" content
                  [Lit "awb_data_";
                   Fmt (items_get d "Air Waybill Number" (PStr "unknown"));
                   Lit ".json"]
                  "application/json" ]
         else [])
     ++ page d
     ++ match outcome (display_awb_data (PDict d)) with
        | Ok _ =>
            if show_raw_json
            then [rule; Markdown [Lit "### 🔍 Raw JSON Data"]; Json (PDict d)]
            else []
        | Raise _ => []
        end)%list.
Proof.
  intros Hdumps. unfold show_record, page, success, json, download_button.
  ui. cbn [app]. do 2 f_equal.
  destruct download_json.
  - ui. rewrite Hdumps. ui. cbn [app]. do 3 f_equal.
    destruct (outcome (display_awb_data (PDict d))); [|reflexivity].
    destruct show_raw_json; ui; reflexivity.
  - ui. cbn [app]. f_equal.
    destruct (outcome (display_awb_data (PDict d))); [|reflexivity].
    destruct show_raw_json; ui; reflexivity.
Qed.

(** C8. For a decoded record [d] whose pretty-printed text is [content],
    the download button, shown when the export is enabled, stands right
    after the success and timing lines: its data is [content] and its file
    name is [awb_data_], the value of 'Air Waybill Number', [.json]; when
    the field is absent the value is the literal [unknown].  A waybill
    number that is a string is part of the name as it is. *)
Theorem export_named_after_waybill_number (w : World) (show_raw_json : bool)
    (elapsed_time : value) (d : items) (content : string) :
  json_dumps w (PDict d) 2 = Ok content ->
  let number := items_get d "Air Waybill Number" (PStr "unknown") in
  let file_name := [Lit "awb_data_"; Fmt number; Lit ".json"] in
  (exists rest,
     elements (show_record w show_raw_json true elapsed_time (PDict d))
     = Success [Lit "✅ Extraction Complete!"]
       :: Info [Lit "⏱️ **Processing Time:** "; FmtSpec elapsed_time ".2f"; Lit " seconds"]
       :: rule
       :: DownloadButton "📥 Download JSON Data" content file_name "application/json"
       :: (page d ++ rest)%list)
  /\ (forall v, items_lookup d "Air Waybill Number" = Some v -> number = v)
  /\ (items_lookup d "Air Waybill Number" = None -> number = PStr "unknown")
  /\ (forall s format,
        number = PStr s -> text format file_name = "awb_data_" ++ s ++ ".json").
Proof.
  intros Hdumps number file_name. subst number file_name. repeat apply conj.
  - rewrite (elements_show_record w show_raw_json true elapsed_time d content Hdumps).
    eexists. reflexivity.
  - intros v Hv. now apply items_get_present.
  - intros Habs. now apply items_get_absent.
  - intros s format Hs. rewrite Hs. reflexivity.
Qed.

(** The record of the specification's scenario: the file is
    [awb_data_020-12345678.json]. *)
Lemma export_named_after_waybill_number_witness :
  json_dumps (sample_world sample_reply) (PDict sample_record) 2 = Ok sample_pretty
  /\ (exists rest,
        elements (show_record (sample_world sample_reply) false true one_and_a_half
                    (PDict sample_record))
        = Success [Lit "✅ Extraction Complete!"]
          :: Info [Lit "⏱️ **Processing Time:** "; FmtSpec one_and_a_half ".2f"; Lit " seconds"]
          :: rule
          :: DownloadButton "📥 Download JSON Data" sample_pretty
               [Lit "awb_data_"; Fmt (PStr "020-12345678"); Lit ".json"]
               "application/json"
          :: (page sample_record ++ rest)%list)
  /\ (forall format,
        text format [Lit "awb_data_"; Fmt (PStr "020-12345678"); Lit ".json"]
        = "awb_data_020-12345678.json").
Proof.
  destruct (export_named_after_waybill_number (sample_world sample_reply) false
              one_and_a_half sample_record sample_pretty eq_refl)
    as (Hbutton & _ & _ & Hname).
  split; [reflexivity|]. split; [exact Hbutton|].
  intros format. exact (Hname "020-12345678" format eq_refl).
Defined.

End Renderer.

(* ================================================================== *)
(** ** Further properties of the program *)
(* ================================================================== *)

Module Further.
Import Py Run Run.Notations St Main Spec ReFacts UIFacts.
Local Open Scope string_scope.

(** [strip()] on plain and on non-ASCII white space. *)
Example strip_examples :
  str_strip ("  Keep dry " ++ newline) = "Keep dry"
  /\ str_strip "   " = EmptyString
  /\ str_strip (String "194" (String "160" EmptyString)) = EmptyString   (* U+00A0 *)
  /\ str_strip "a b" = "a b".
Proof. repeat split. Qed.

(** Without [re.DOTALL] the dot stops at a newline, and an object printed
    over two lines is not matched. *)
Example dotall_needed :
  Re.search false awb_pattern ("{" ++ newline ++ "}") = None
  /\ Re.search true awb_pattern ("{" ++ newline ++ "}")
     = Some ("{" ++ newline ++ "}").
Proof. split; reflexivity. Qed.

(** X1. On every text the match of [r'\{.*\}'] under [re.DOTALL] is the
    span from the first opening brace to the last closing brace, and there
    is no match when no closing brace follows the first opening brace. *)
Theorem json_match_is_brace_span (text : string) :
  json_match (PStr text) = Ok (brace_span text).
Proof. unfold json_match. now rewrite search_brace_span. Qed.

(** X2. The render of a decoded dict completes exactly when 'Handling
    Information' and 'Accounting Information' are each absent, falsy or a
    string; otherwise it raises the [AttributeError] of [strip()] on the
    first of the two that is neither. *)
Theorem render_completes_iff_strip_safe (d : items) :
  outcome (display_awb_data (PDict d))
  = if strip_safe d "Handling Information"
    then if strip_safe d "Accounting Information"
         then Ok tt
         else Raise (AttributeError (items_get d "Accounting Information" PNone) "strip")
    else Raise (AttributeError (items_get d "Handling Information" PNone) "strip").
Proof.
  rewrite display_outcome, additional_information_outcome.
  destruct (strip_safe d "Handling Information") eqn:H1.
  - destruct (strip_safe d "Accounting Information") eqn:H2; cbn [andb].
    + reflexivity.
    + rewrite (optional_box_safe _ _ H1).
      destruct (optional_box_unsafe _ _ H2) as (v & Hv & ->).
      now rewrite (items_get_present _ _ _ _ Hv).
  - cbn [andb]. destruct (optional_box_unsafe _ _ H1) as (v & Hv & ->).
    now rewrite (items_get_present _ _ _ _ Hv).
Qed.

(** X3. The goods section of a decoded dict never raises.  When the field
    is a non-empty list it shows, under the heading, the rows of the
    elements that are dicts, in order, each under its index in the list,
    and nothing for the other elements; in every other case (absent, empty
    list, not a list) it shows the "no data" note. *)
Theorem goods_section_rows_or_note (d : items) :
  outcome (goods_description (PDict d)) = Ok tt
  /\ elements (goods_description (PDict d))
     = Markdown [Lit "### 📦 Goods Description"]
       :: (let goods_data := items_get d "Goods Description Table Rows" (PList []) in
           if nonempty_list goods_data
           then conforming_rows goods_row (list_elements goods_data)
           else [Info [Lit "No goods description data available"]]).
Proof.
  split; [apply goods_description_ok | apply goods_description_elements].
Qed.

(** X4. The routing column and the charges section of a decoded dict never
    raise, show the lines of the elements that are dicts, in order, and
    skip every other element. *)
Theorem routing_and_charges_skip_non_dicts (d : items) :
  outcome (agent_and_routing (PDict d)) = Ok tt
  /\ outcome (charges_details (PDict d)) = Ok tt
  /\ elements (agent_and_routing (PDict d))
     = ([ Markdown [Lit "### 🏢 Agent & Routing Details"]; Columns 2;
          Markdown [Lit "**Issuing Carrier's Agent:** ";
                    Fmt (items_get d "Issuing Carrier's Agent Name and City" NA)];
          Markdown [Lit "**Issued by:** "; Fmt (items_get d "Issued by" NA)];
          Markdown [Lit "**Account No:** "; Fmt (items_get d "Account No" NA)] ]
        ++ (let routing_data := items_get d "Routing and Destination" (PList []) in
            if nonempty_list routing_data
            then Markdown [Lit "**Routing Information:**"]
                 :: conforming_rows (fun _ r => [leg_line r])
                      (list_elements routing_data)
            else [Markdown [Lit "**Routing Information:** N/A"]]))%list
  /\ elements (charges_details (PDict d))
     = Markdown [Lit "### 💰 Charges Details"]
       :: (let charges_data := items_get d "Charges Details" (PList []) in
           if nonempty_list charges_data
           then conforming_rows (fun _ => charges_record) (list_elements charges_data)
           else [Info [Lit "No charges details available"]]).
Proof.
  split; [apply agent_and_routing_ok|].
  split; [apply charges_details_ok|].
  split; [apply agent_and_routing_elements | apply charges_details_elements].
Qed.



(** The end-to-end scenario of the specification: the model answers
    exactly the sample object.  The page is the success line, the timing,
    the download button for [awb_data_020-12345678.json], and the record's
    page, whose routing column shows the one line "To: JFK | By: AA". *)
Theorem end_to_end_scenario :
  elements (on_extract (sample_world sample_reply) (Some not_a_pdf) "key"
              false true one_and_a_half)
  = (Success [Lit "✅ Extraction Complete!"]
     :: Info [Lit "⏱️ **Processing Time:** "; FmtSpec one_and_a_half ".2f"; Lit " seconds"]
     :: rule
     :: DownloadButton "📥 Download JSON Data" sample_pretty
          [Lit "awb_data_"; Fmt (PStr "020-12345678"); Lit ".json"]
          "application/json"
     :: page sample_record)%list
  /\ elements (agent_and_routing (PDict sample_record))
     = [ Markdown [Lit "### 🏢 Agent & Routing Details"]; Columns 2;
         Markdown [Lit "**Issuing Carrier's Agent:** "; Fmt NA];
         Markdown [Lit "**Issued by:** "; Fmt NA];
         Markdown [Lit "**Account No:** "; Fmt NA];
         Markdown [Lit "**Routing Information:**"];
         Markdown [Lit "• To: "; Fmt (PStr "JFK"); Lit " | By: "; Fmt (PStr "AA")] ]
  /\ (forall format,
        text format [Lit "• To: "; Fmt (PStr "JFK"); Lit " | By: "; Fmt (PStr "AA")]
        = "• To: JFK | By: AA").
Proof. repeat split. Qed.

End Further.

(* ================================================================== *)
(** ** Lemmas on the page, the response page, the backend and the script *)
(* ================================================================== *)

Module PageFacts.
Import Py Run Run.Notations St Main Spec Script Terms ReFacts UIFacts.

(** *** The optional boxes *)

Lemma str_strip_empty_truthy (s : string) :
  String.eqb (str_strip s) EmptyString = false -> truthy (PStr s) = true.
Proof. destruct s; [discriminate | reflexivity]. Qed.

Lemma optional_box_run d f :
  optional_box (PDict d) f =
  match items_lookup d f with
  | None => ([], Ok tt)
  | Some v =>
      if truthy v
      then match v with
           | PStr s =>
               if String.eqb (str_strip s) EmptyString then ([], Ok tt)
               else ([mkPlaced [] (TextArea [Lit f] v 60 true None)], Ok tt)
           | _ => ([], Raise (AttributeError v "strip"))
           end
      else ([], Ok tt)
  end.
Proof.
  destruct (items_lookup d f) as [v|] eqn:E.
  - unfold optional_box. rewrite !get_dict, bind_ret.
    rewrite !(items_get_present _ _ _ _ E).
    destruct (truthy v) eqn:T; [|reflexivity].
    destruct v as [| | | |s| |]; try reflexivity.
    cbn. destruct (String.eqb (str_strip s) EmptyString); reflexivity.
  - now apply optional_box_absent.
Qed.

Lemma optional_box_elements d f :
  elements (optional_box (PDict d) f) =
  if box_shown d f then [TextArea [Lit f] (items_get d f NA) 60 true None] else [].
Proof.
  rewrite optional_box_run. unfold box_shown, items_get.
  destruct (items_lookup d f) as [v|]; [|reflexivity].
  destruct v as [| |z|fl|s|l|c]; cbn [truthy]; try reflexivity.
  - destruct b; reflexivity.
  - destruct (negb (z =? 0)%Z); reflexivity.
  - destruct fl; reflexivity.
  - destruct s as [|a s']; [reflexivity|].
    change (negb (String.eqb (String a s') EmptyString)) with true. cbv iota.
    destruct (String.eqb (str_strip (String a s')) EmptyString); reflexivity.
  - destruct l; reflexivity.
  - destruct c; reflexivity.
Qed.

Lemma additional_information_elements d :
  elements (additional_information (PDict d)) =
  Markdown [Lit "### ℹ️ Additional Information"]
  :: elements (optional_box (PDict d) "Handling Information")
  ++ (if strip_safe d "Handling Information"
      then elements (optional_box (PDict d) "Accounting Information")
      else []).
Proof.
  unfold additional_information. ui. cbn [app]. do 2 f_equal.
  destruct (strip_safe d "Handling Information") eqn:H.
  - rewrite (optional_box_safe _ _ H). reflexivity.
  - destruct (optional_box_unsafe _ _ H) as (v & _ & ->). reflexivity.
Qed.

(** *** Properties kept by every element of the page *)

Section Every.
Variable P : element -> bool.

Lemma forallb_conforming_rows (row : nat -> items -> list element) l :
  (forall i r, forallb P (row i r) = true) ->
  forallb P (conforming_rows row l) = true.
Proof.
  intros Hrow. unfold conforming_rows. generalize 0.
  induction l as [|x l' IH]; intros n; [reflexivity|].
  cbn [List.length seq combine flat_map]. rewrite forallb_app, IH, andb_true_r.
  cbn [snd fst]. destruct x; try reflexivity. apply Hrow.
Qed.

Hypothesis P_markdown : forall b, P (Markdown b) = true.
Hypothesis P_info : forall b, P (Info b) = true.
Hypothesis P_columns : forall n, P (Columns n) = true.
Hypothesis P_goods : forall i v k,
  P (TextArea [Lit "Nature and Quantity of Goods "; Fmt (PInt (Z.of_nat i + 1))]
       v 100 false (Some k)) = true.
Hypothesis P_shipper : forall v,
  P (TextArea [Lit "Shipper's Name and Address"] v 100 false None) = true.
Hypothesis P_consignee : forall v,
  P (TextArea [Lit "Consignee's Name and Address"] v 100 false None) = true.
Hypothesis P_handling : forall v,
  P (TextArea [Lit "Handling Information"] v 60 true None) = true.
Hypothesis P_accounting : forall v,
  P (TextArea [Lit "Accounting Information"] v 60 true None) = true.

Lemma every_charge_line caption sub side :
  forallb P (charge_line caption sub side) = true.
Proof. destruct sub; cbn; rewrite ?P_markdown; reflexivity. Qed.

Lemma every_charges_record c : forallb P (charges_record c) = true.
Proof.
  unfold charges_record. cbv zeta.
  rewrite !forallb_app, !every_charge_line. cbn.
  rewrite ?P_markdown, ?P_columns. reflexivity.
Qed.

Lemma every_goods_row i r : forallb P (goods_row i r) = true.
Proof.
  unfold goods_row. cbn [forallb].
  rewrite ?P_markdown, ?P_columns, P_goods. reflexivity.
Qed.

Lemma every_optional_box d f :
  f = "Handling Information" \/ f = "Accounting Information" ->
  forallb P (elements (optional_box (PDict d) f)) = true.
Proof.
  intros Hf. rewrite optional_box_elements. destruct (box_shown d f); [|reflexivity].
  cbn. destruct Hf as [-> | ->]; rewrite ?P_handling, ?P_accounting; reflexivity.
Qed.

(** A property of the markdown lines, notes, column rows and of the five
    kinds of text box holds of every element of a page. *)
Lemma every_element_of_page d : forallb P (page d) = true.
Proof.
  rewrite page_sections. rewrite !forallb_app.
  rewrite agent_and_routing_elements, goods_description_elements,
    charges_details_elements, additional_information_elements.
  cbv zeta.
  assert (Hsig : forallb P (elements (signatures_and_execution (PDict d))) = true).
  { cbn. rewrite ?P_markdown, ?P_columns. reflexivity. }
  assert (Htail : forallb P
            match outcome (additional_information (PDict d)) with
            | Ok _ => elements (signatures_and_execution (PDict d))
            | Raise _ => []
            end = true).
  { destruct (outcome (additional_information (PDict d))); [exact Hsig|reflexivity]. }
  rewrite Htail.
  assert (Hrout : forallb P
            (if nonempty_list (items_get d "Routing and Destination" (PList []))
             then Markdown [Lit "**Routing Information:**"]
                  :: conforming_rows (fun _ r => [leg_line r])
                       (list_elements (items_get d "Routing and Destination" (PList [])))
             else [Markdown [Lit "**Routing Information:** N/A"]]) = true).
  { destruct (nonempty_list _); cbn [forallb]; rewrite P_markdown; [|reflexivity].
    apply forallb_conforming_rows. intros i r. unfold leg_line. cbn [forallb].
    now rewrite P_markdown. }
  assert (Hgoods : forallb P
            (if nonempty_list (items_get d "Goods Description Table Rows" (PList []))
             then conforming_rows goods_row
                    (list_elements (items_get d "Goods Description Table Rows" (PList [])))
             else [Info [Lit "No goods description data available"]]) = true).
  { destruct (nonempty_list (items_get d "Goods Description Table Rows" (PList [])));
      [|cbn; now rewrite P_info].
    apply forallb_conforming_rows, every_goods_row. }
  assert (Hch : forallb P
            (if nonempty_list (items_get d "Charges Details" (PList []))
             then conforming_rows (fun _ => charges_record)
                    (list_elements (items_get d "Charges Details" (PList [])))
             else [Info [Lit "No charges details available"]]) = true).
  { destruct (nonempty_list (items_get d "Charges Details" (PList [])));
      [|cbn; now rewrite P_info].
    apply forallb_conforming_rows. intros _. apply every_charges_record. }
  cbn [forallb app]. rewrite !forallb_app. rewrite Hrout, Hgoods, Hch.
  rewrite (every_optional_box d "Handling Information") by tauto.
  assert (Hacc : forallb P
            (if strip_safe d "Handling Information"
             then elements (optional_box (PDict d) "Accounting Information")
             else []) = true).
  { destruct (strip_safe d "Handling Information"); [|reflexivity].
    apply every_optional_box. tauto. }
  rewrite Hacc.
  cbn. unfold rule. rewrite ?P_markdown, ?P_columns, ?P_shipper, ?P_consignee.
  reflexivity.
Qed.

End Every.


Lemma display_not_a_dict (v : value) :
  is_dict v = false ->
  display_awb_data v
  = ([ mkPlaced [] rule;
       mkPlaced [] (Markdown [Lit "## 📋 Air Waybill Information"]);
       mkPlaced [Container] (Markdown [Lit "### 📄 Document Details"]);
       mkPlaced [Container] (Columns 2) ],
     Raise (AttributeError v "get")).
Proof. destruct v; try reflexivity. discriminate. Qed.

(** The elements of a render are of the renderer's four kinds. *)
Lemma render_kinds (data : value) :
  forallb render_kind (elements (display_awb_data data)) = true.
Proof.
  destruct (is_dict data) eqn:E.
  - destruct data; try discriminate. apply every_element_of_page; reflexivity.
  - now rewrite (display_not_a_dict data E).
Qed.

Lemma forallb_weaken {A} (P Q : A -> bool) (l : list A) :
  (forall x, P x = true -> Q x = true) ->
  forallb P l = true -> forallb Q l = true.
Proof.
  intros H. induction l as [|x l' IH]; cbn; [reflexivity|].
  intros Hl. apply andb_true_iff in Hl. destruct Hl as [Hx Hl].
  now rewrite (H x Hx), IH.
Qed.

Lemma existsb_false_forallb {A} (Q : A -> bool) (l : list A) :
  forallb (fun x => negb (Q x)) l = true -> existsb Q l = false.
Proof.
  induction l as [|x l' IH]; cbn; [reflexivity|].
  intros H. apply andb_true_iff in H. destruct H as [Hx Hl].
  apply negb_true_iff in Hx. now rewrite Hx, IH.
Qed.

(** A render shows no text area labelled "Raw Model Response". *)
Lemma render_has_no_raw_box (data : value) :
  existsb (is_box "Raw Model Response") (elements (display_awb_data data)) = false.
Proof.
  apply existsb_false_forallb.
  destruct (is_dict data) eqn:E.
  - destruct data; try discriminate. apply every_element_of_page; reflexivity.
  - now rewrite (display_not_a_dict data E).
Qed.

Lemma render_has_none (Q : element -> bool) (data : value) :
  (forall e, render_kind e = true -> Q e = false) ->
  existsb Q (elements (display_awb_data data)) = false.
Proof.
  intros H. apply existsb_false_forallb.
  apply (forallb_weaken render_kind); [|apply render_kinds].
  intros e He. now rewrite (H e He).
Qed.

End PageFacts.

Module HandlerFacts.
Import Py Run Run.Notations St Main Spec Script Terms ReFacts UIFacts PageFacts.

Lemma elements_try_except {A} (m : UI A) (h : Exception -> UI A) :
  elements (try_except m h) =
  elements m ++ match outcome m with Ok _ => [] | Raise e => elements (h e) end.
Proof.
  destruct m as [ev [a|e]]; cbn.
  - unfold elements. cbn. now rewrite app_nil_r.
  - unfold elements. cbn. destruct (h e). cbn. now rewrite map_app.
Qed.

Lemma existsb_noise (l : list element) :
  existsb noise l = existsb is_error l || existsb (is_box "Raw Model Response") l.
Proof.
  induction l as [|x l' IH]; [reflexivity|]. cbn. rewrite IH. unfold noise.
  destruct (is_error x), (is_box "Raw Model Response" x),
    (existsb is_error l'); reflexivity.
Qed.

Lemma show_record_body (w : World) (show_raw_json download_json : bool)
    (elapsed_time data : value) :
  exists body,
    elements (show_record w show_raw_json download_json elapsed_time data)
    = Success [Lit "✅ Extraction Complete!"]
      :: Info [Lit "⏱️ **Processing Time:** "; FmtSpec elapsed_time ".2f"; Lit " seconds"]
      :: body
    /\ existsb noise body = false.
Proof.
  unfold show_record, success, info, download_button, json. ui. cbn [app].
  eexists. split; [reflexivity|].
  match goal with
  | |- existsb noise (elements ?A ++ _) = false => set (block := A)
  end.
  assert (HA : existsb noise (elements block) = false).
  { subst block. destruct download_json; ui; [|reflexivity].
    destruct (json_dumps w data 2); ui; [|reflexivity].
    unfold get_. destruct (get data "Air Waybill Number" (PStr "unknown")); ui;
      reflexivity. }
  rewrite existsb_app, HA. destruct (outcome block); [|reflexivity].
  rewrite existsb_app.
  rewrite (existsb_noise (elements (display_awb_data data))).
  rewrite (render_has_none is_error data)
    by (intros [] He; try discriminate He; reflexivity).
  rewrite render_has_no_raw_box. cbn [orb].
  destruct (outcome (display_awb_data data)); [|reflexivity].
  destruct show_raw_json; ui; reflexivity.
Qed.

Lemma noise_split (l : list element) :
  existsb noise l = false ->
  filter is_error l = [] /\ filter (is_box "Raw Model Response") l = [].
Proof.
  induction l as [|x l' IH]; cbn; [split; reflexivity|].
  intros H. apply orb_false_iff in H. destruct H as [Hx Hl].
  unfold noise in Hx. apply orb_false_iff in Hx. destruct Hx as [-> ->].
  exact (IH Hl).
Qed.


Lemma show_record_ok_render_ok (w : World) (show_raw_json download_json : bool)
    (elapsed_time data : value) (u : unit) :
  outcome (show_record w show_raw_json download_json elapsed_time data) = Ok u ->
  outcome (display_awb_data data) = Ok tt.
Proof.
  unfold show_record, success, info. ui.
  match goal with
  | |- match outcome ?A with _ => _ end = _ -> _ => destruct (outcome A)
  end; [|discriminate].
  destruct (outcome (display_awb_data data)) as [[]|]; [reflexivity|discriminate].
Qed.

Lemma last_ends_with {A} (l : list A) (x y d : A) : last (l ++ [x; y]) d = y.
Proof.
  change (l ++ [x; y]) with (l ++ [x] ++ [y]). rewrite app_assoc. apply last_last.
Qed.

End HandlerFacts.

Module FrameFacts.
Import Py Run Run.Notations St Main Spec Script Terms ReFacts UIFacts PageFacts HandlerFacts.

Lemma same_get (d1 d2 : items) (k : string) (v : value) :
  items_lookup d1 k = items_lookup d2 k -> items_get d1 k v = items_get d2 k v.
Proof. unfold items_get. now intros ->. Qed.

Ltac in_list := cbn [In]; repeat (first [left; reflexivity | right]).

Lemma lookup_other (k k' : string) (v : value) (d : items) :
  String.eqb k k' = false -> items_lookup ((k, v) :: d) k' = items_lookup d k'.
Proof. cbn. now intros ->. Qed.

Lemma unread_key_same (k : string) (v : value) (d : items) :
  existsb (String.eqb k) keys_read = false ->
  same_on keys_read ((k, v) :: d) d.
Proof.
  intros Hk k' Hin. apply lookup_other.
  destruct (String.eqb k k') eqn:E; [|reflexivity].
  rewrite <- Hk. symmetry. apply existsb_exists. now exists k'.
Qed.

End FrameFacts.

Module ValueFacts.
Import Py Run Run.Notations St Main Spec Script Terms ReFacts UIFacts PageFacts HandlerFacts FrameFacts.

Ltac find_shown :=
  cbn -[items_get conforming_rows nonempty_list];
  repeat (first [ left; split; reflexivity | right ]).

Lemma shown_in (caption : string) (v : value) (part pg : list element) :
  (forall e, In e part -> In e pg) ->
  (exists e, In e part /\ shows_value caption v e) ->
  exists e, In e pg /\ shows_value caption v e.
Proof. intros Hsub (e & He & Hs). exists e. auto. Qed.

Lemma exists_in_cons {A} (P : A -> Prop) (x : A) (l : list A) :
  P x \/ (exists e, In e l /\ P e) -> exists e, In e (x :: l) /\ P e.
Proof.
  intros [H | (e & He & HP)]; [exists x | exists e]; cbn; auto.
Qed.

Ltac search_shown :=
  repeat (apply exists_in_cons;
          first [ left; cbn; split; reflexivity | right ]).

Lemma scalar_values_shown d :
  outcome (display_awb_data (PDict d)) = Ok tt ->
  forall key caption,
    In (key, caption) scalar_fields ->
    exists e, In e (page d) /\ shows_value caption (items_get d key NA) e.
Proof.
  intros Hok key caption Hin.
  unfold scalar_fields in Hin. cbn [In] in Hin.
  repeat (destruct Hin as [Hin|Hin]; [injection Hin as <- <-|]); [..|contradiction].
  all: first
    [ solve [apply (shown_in _ _ _ _ (in_basic d));
             cbn -[items_get In shows_value]; search_shown]
    | solve [apply (shown_in _ _ _ _ (in_parties d));
             cbn -[items_get In shows_value]; search_shown]
    | solve [apply (shown_in _ _ _ _ (in_agent d));
             rewrite agent_and_routing_elements;
             cbn -[items_get conforming_rows nonempty_list In shows_value];
             search_shown]
    | solve [apply (shown_in _ _ _ _ (in_declarations d));
             cbn -[items_get In shows_value]; search_shown]
    | solve [apply (shown_in _ _ _ _ (fun e => in_signatures d e Hok));
             cbn -[items_get In shows_value]; search_shown] ].
Qed.

End ValueFacts.

Module LabelFacts.
Import Py Run Run.Notations St Main Spec Script Terms ReFacts UIFacts PageFacts HandlerFacts FrameFacts ValueFacts.

Lemma labels_app l1 l2 :
  text_area_labels (l1 ++ l2) = text_area_labels l1 ++ text_area_labels l2.
Proof. apply flat_map_app. Qed.

Lemma keys_app l1 l2 :
  text_area_keys (l1 ++ l2) = text_area_keys l1 ++ text_area_keys l2.
Proof. apply flat_map_app. Qed.

Lemma labels_none l : forallb no_text_area l = true -> text_area_labels l = [].
Proof.
  induction l as [|x l' IH]; [reflexivity|]. cbn [forallb]. intros H.
  apply andb_true_iff in H. destruct H as [Hx Hl].
  change (x :: l') with ([x] ++ l'). rewrite labels_app, (IH Hl), app_nil_r.
  destruct x; try reflexivity. discriminate.
Qed.

Lemma keys_none l : forallb no_text_area l = true -> text_area_keys l = [].
Proof.
  induction l as [|x l' IH]; [reflexivity|]. cbn [forallb]. intros H.
  apply andb_true_iff in H. destruct H as [Hx Hl].
  change (x :: l') with ([x] ++ l'). rewrite keys_app, (IH Hl), app_nil_r.
  destruct x; try reflexivity. discriminate.
Qed.

Lemma dict_indices_bound n l i : In i (dict_indices n l) -> n <= i.
Proof.
  revert n. induction l as [|x l' IH]; intros n; [intros []|].
  destruct x; cbn; try (intros H; apply IH in H; lia).
  intros [<-|H]; [lia|]. apply IH in H. lia.
Qed.

Lemma dict_indices_NoDup n l : NoDup (dict_indices n l).
Proof.
  revert n. induction l as [|x l' IH]; intros n; [constructor|].
  destruct x; cbn; try apply IH.
  constructor; [|apply IH]. intros H. apply dict_indices_bound in H. lia.
Qed.

Lemma goods_rows_labels n l :
  text_area_labels
    (flat_map (fun ix => match snd ix with
                         | PDict r => goods_row (fst ix) r
                         | _ => []
                         end)
              (combine (seq n (List.length l)) l))
  = map goods_label (dict_indices n l).
Proof.
  revert n. induction l as [|x l' IH]; intros n; [reflexivity|].
  cbn [List.length seq combine flat_map]. rewrite labels_app, IH.
  destruct x; reflexivity.
Qed.

Lemma goods_rows_keys n l :
  text_area_keys
    (flat_map (fun ix => match snd ix with
                         | PDict r => goods_row (fst ix) r
                         | _ => []
                         end)
              (combine (seq n (List.length l)) l))
  = map goods_key (dict_indices n l).
Proof.
  revert n. induction l as [|x l' IH]; intros n; [reflexivity|].
  cbn [List.length seq combine flat_map]. rewrite keys_app, IH.
  destruct x; reflexivity.
Qed.

Lemma NoDup_map_injective {A B} (f : A -> B) (l : list A) :
  (forall x y, f x = f y -> x = y) -> NoDup l -> NoDup (map f l).
Proof.
  intros Hinj H. induction H as [|x l Hx Hl IH]; cbn; constructor; [|exact IH].
  intros Hin. apply in_map_iff in Hin. destruct Hin as (y & Hy & Hin).
  apply Hinj in Hy. now subst.
Qed.

Lemma goods_label_injective i j : goods_label i = goods_label j -> i = j.
Proof. unfold goods_label. intros [= H]. lia. Qed.

Lemma goods_key_injective i j : goods_key i = goods_key j -> i = j.
Proof. unfold goods_key. intros [= H]. lia. Qed.

Lemma goods_part_labels (v : value) :
  text_area_labels
    (if nonempty_list v
     then conforming_rows goods_row (list_elements v)
     else [Info [Lit "No goods description data available"]])
  = map goods_label (dict_indices 0 (list_elements v)).
Proof.
  destruct (nonempty_list v) eqn:E.
  - apply goods_rows_labels.
  - destruct v as [| | | | |[|x l]|]; try reflexivity. discriminate.
Qed.

Lemma goods_part_keys (v : value) :
  text_area_keys
    (if nonempty_list v
     then conforming_rows goods_row (list_elements v)
     else [Info [Lit "No goods description data available"]])
  = map goods_key (dict_indices 0 (list_elements v)).
Proof.
  destruct (nonempty_list v) eqn:E.
  - apply goods_rows_keys.
  - destruct v as [| | | | |[|x l]|]; try reflexivity. discriminate.
Qed.

Lemma no_text_area_routing (v : value) :
  forallb no_text_area
    (if nonempty_list v
     then Markdown [Lit "**Routing Information:**"]
          :: conforming_rows (fun _ r => [leg_line r]) (list_elements v)
     else [Markdown [Lit "**Routing Information:** N/A"]]) = true.
Proof.
  destruct (nonempty_list v); [|reflexivity]. cbn [forallb no_text_area andb].
  apply forallb_conforming_rows. reflexivity.
Qed.

Lemma no_text_area_charges (v : value) :
  forallb no_text_area
    (if nonempty_list v
     then conforming_rows (fun _ => charges_record) (list_elements v)
     else [Info [Lit "No charges details available"]]) = true.
Proof.
  destruct (nonempty_list v); [|reflexivity].
  apply forallb_conforming_rows. intros _ c.
  apply every_charges_record; reflexivity.
Qed.

Lemma page_labels d :
  text_area_labels (page d)
  = [Lit "Shipper's Name and Address"] :: [Lit "Consignee's Name and Address"]
    :: map goods_label (goods_indices d) ++ box_labels d.
Proof.
  rewrite page_sections. rewrite !labels_app.
  rewrite agent_and_routing_elements, goods_description_elements,
    charges_details_elements, additional_information_elements.
  rewrite !optional_box_elements. cbv zeta.
  rewrite !labels_app.
  rewrite (labels_none _ (no_text_area_routing _)).
  change (text_area_labels (Markdown [Lit "### 📦 Goods Description"] :: ?l))
    with (text_area_labels l).
  rewrite goods_part_labels.
  change (text_area_labels (Markdown [Lit "### 💰 Charges Details"] :: ?l))
    with (text_area_labels l).
  rewrite (labels_none _ (no_text_area_charges _)).
  assert (Htail : text_area_labels
            match outcome (additional_information (PDict d)) with
            | Ok _ => elements (signatures_and_execution (PDict d))
            | Raise _ => []
            end = []).
  { destruct (outcome (additional_information (PDict d))); reflexivity. }
  rewrite Htail. unfold box_labels, goods_indices.
  cbn -[items_get dict_indices box_shown strip_safe].
  rewrite !app_nil_r. do 3 f_equal.
  destruct (box_shown d "Handling Information"),
    (strip_safe d "Handling Information"),
    (box_shown d "Accounting Information"); reflexivity.
Qed.


Lemma page_keys d :
  text_area_keys (page d) = map goods_key (goods_indices d).
Proof.
  rewrite page_sections. rewrite !keys_app.
  rewrite agent_and_routing_elements, goods_description_elements,
    charges_details_elements, additional_information_elements.
  rewrite !optional_box_elements. cbv zeta.
  rewrite !keys_app.
  rewrite (keys_none _ (no_text_area_routing _)).
  change (text_area_keys (Markdown [Lit "### 📦 Goods Description"] :: ?l))
    with (text_area_keys l).
  rewrite goods_part_keys.
  change (text_area_keys (Markdown [Lit "### 💰 Charges Details"] :: ?l))
    with (text_area_keys l).
  rewrite (keys_none _ (no_text_area_charges _)).
  assert (Htail : text_area_keys
            match outcome (additional_information (PDict d)) with
            | Ok _ => elements (signatures_and_execution (PDict d))
            | Raise _ => []
            end = []).
  { destruct (outcome (additional_information (PDict d))); reflexivity. }
  rewrite Htail. unfold goods_indices.
  cbn -[items_get dict_indices box_shown strip_safe].
  rewrite !app_nil_r.
  destruct (box_shown d "Handling Information"),
    (strip_safe d "Handling Information"),
    (box_shown d "Accounting Information"); cbn; now rewrite ?app_nil_r.
Qed.

Lemma box_labels_cases d :
  box_labels d = [] \/ box_labels d = [[Lit "Handling Information"]]
  \/ box_labels d = [[Lit "Accounting Information"]]
  \/ box_labels d = [[Lit "Handling Information"]; [Lit "Accounting Information"]].
Proof.
  unfold box_labels.
  destruct (box_shown d "Handling Information"),
    (strip_safe d "Handling Information" && box_shown d "Accounting Information");
    cbn; tauto.
Qed.

Lemma page_labels_NoDup d : NoDup (text_area_labels (page d)).
Proof.
  rewrite page_labels.
  assert (Hg : NoDup (map goods_label (goods_indices d)))
    by (apply NoDup_map_injective;
        [apply goods_label_injective | apply dict_indices_NoDup]).
  assert (Hb : NoDup (box_labels d)).
  { destruct (box_labels_cases d) as [-> | [-> | [-> | ->]]];
      repeat constructor; cbn; intuition discriminate. }
  assert (Hgb : NoDup (map goods_label (goods_indices d) ++ box_labels d)).
  { apply NoDup_app; [exact Hg | exact Hb |].
    intros lab Hin. apply in_map_iff in Hin. destruct Hin as (i & <- & _).
    destruct (box_labels_cases d) as [-> | [-> | [-> | ->]]];
      cbn; unfold goods_label; intuition discriminate. }
  assert (Hnot : forall c : string,
            ~ In [Lit c] (map goods_label (goods_indices d))).
  { intros c Hin. apply in_map_iff in Hin. destruct Hin as (i & Hi & _).
    discriminate Hi. }
  constructor; [|constructor; [|exact Hgb]].
  - cbn. intros [H | H]; [discriminate H|].
    apply in_app_or in H. destruct H as [H | H]; [exact (Hnot _ H)|].
    destruct (box_labels_cases d) as [E | [E | [E | E]]]; rewrite E in H;
      cbn in H; intuition discriminate.
  - intros H. apply in_app_or in H. destruct H as [H | H]; [exact (Hnot _ H)|].
    destruct (box_labels_cases d) as [E | [E | [E | E]]]; rewrite E in H;
      cbn in H; intuition discriminate.
Qed.

Lemma page_keys_NoDup d : NoDup (text_area_keys (page d)).
Proof.
  rewrite page_keys. apply NoDup_map_injective;
    [apply goods_key_injective | apply dict_indices_NoDup].
Qed.

Lemma is_box_labels (f : string) (l : list element) :
  existsb (is_box f) l
  = existsb (fun lab => match lab with
                        | [Lit c] => String.eqb c f
                        | _ => false
                        end) (text_area_labels l).
Proof.
  induction l as [|x l' IH]; [reflexivity|].
  change (x :: l') with ([x] ++ l'). rewrite labels_app, !existsb_app, IH.
  f_equal. destruct x; cbn; rewrite ?orb_false_r; reflexivity.
Qed.

End LabelFacts.

Module SpanFacts.
Import Py Run Run.Notations St Main Spec Script Terms ReFacts UIFacts PageFacts HandlerFacts FrameFacts ValueFacts LabelFacts.
Local Open Scope string_scope.

Lemma length_app (a b : string) :
  String.length (a ++ b) = String.length a + String.length b.
Proof. induction a as [|c a' IH]; cbn; [reflexivity | now rewrite IH]. Qed.

(** The text from the first [c] on, when a [c] is known to occur: what
    precedes it has no [c]. *)
Lemma from_first_split (c : ascii) (pre rest t : string) :
  from_first c (pre ++ String c rest) = Some t ->
  exists p1 p2, pre = p1 ++ p2 /\ occurs c p1 = false
                /\ t = p2 ++ String c rest.
Proof.
  induction pre as [|a pre' IH]; cbn [String.append from_first].
  - rewrite Ascii.eqb_refl. intros [= <-]. now exists EmptyString, EmptyString.
  - destruct (Ascii.eqb a c) eqn:E.
    + intros [= <-]. now exists EmptyString, (String a pre').
    + intros H. destruct (IH H) as (p1 & p2 & -> & Hp1 & ->).
      exists (String a p1), p2. cbn. now rewrite E, Hp1.
Qed.

(** The text up to the last [c]: at least up to any given [c], and no
    further only when no [c] follows. *)
Lemma upto_last_reach (c : ascii) (x post m : string) :
  upto_last c (x ++ String c post) = Some m ->
  String.length x + 1 <= String.length m
  /\ (String.length m = String.length x + 1 -> occurs c post = false).
Proof.
  revert m. induction x as [|a x' IH]; intros m; cbn [String.append upto_last].
  - destruct (upto_last c post) as [m'|] eqn:E.
    + intros [= <-]. cbn. split; [lia|].
      destruct m'; cbn; [|lia]. destruct post; [discriminate|].
      cbn in E. destruct (upto_last c post); [discriminate|].
      destruct (Ascii.eqb a c); discriminate.
    + rewrite Ascii.eqb_refl. intros [= <-]. cbn. split; [lia|].
      intros _. now apply upto_last_none.
  - destruct (upto_last c (x' ++ String c post)) as [m'|] eqn:E.
    + intros [= <-]. destruct (IH m' eq_refl) as [H1 H2]. cbn.
      split; [lia|]. intros H. apply H2. lia.
    + apply upto_last_none in E. exfalso. clear IH.
      induction x' as [|b x'' IH']; cbn in E.
      * now rewrite Ascii.eqb_refl in E.
      * apply orb_false_iff in E. destruct E as [_ E]. now apply IH'.
Qed.

Lemma exact_span_only_if (pre mid post : string) :
  Re.search true awb_pattern (pre ++ String "{" (mid ++ String "}" post))
  = Some (String "{" (mid ++ String "}" EmptyString)) ->
  occurs "{" pre = false /\ occurs "}" post = false.
Proof.
  rewrite search_brace_span. unfold brace_span.
  destruct (from_first "{" _) as [t|] eqn:F; [|discriminate].
  apply from_first_split in F. destruct F as (p1 & p2 & -> & Hp1 & ->).
  intros U.
  assert (E : p2 ++ String "{" (mid ++ String "}" post)
              = (p2 ++ String "{" mid) ++ String "}" post).
  { clear. induction p2 as [|a p IH]; cbn; [reflexivity | now rewrite IH]. }
  rewrite E in U. apply upto_last_reach in U. destruct U as [U1 U2].
  cbn [String.length] in U1, U2. rewrite !length_app in U1, U2.
  cbn [String.length] in U1, U2.
  assert (L : String.length p2 = 0) by lia.
  destruct p2; [|discriminate L]. split.
  - clear - Hp1. induction p1 as [|a p IH]; cbn in *; [reflexivity|].
    apply orb_false_iff in Hp1. destruct Hp1 as [-> H]. now apply IH.
  - apply U2. cbn. lia.
Qed.

End SpanFacts.

Module BackendFacts.
Import Py Run Run.Notations St Main Spec Script Terms ReFacts UIFacts PageFacts HandlerFacts FrameFacts ValueFacts LabelFacts SpanFacts.

Lemma first_page_only_backend (w : World) (pdf_bytes : list byte)
    (api_key : string) :
  extract_awb_data (first_page_only w) pdf_bytes api_key
  = extract_awb_data w pdf_bytes api_key.
Proof.
  unfold extract_awb_data, extract_awb_data_try, call, first_page_only.
  cbn [convert_from_bytes save_png genai_Client Part_from_bytes
       generate_content response_text image client part response].
  destruct (convert_from_bytes w pdf_bytes) as [[|page rest]|e]; reflexivity.
Qed.

End BackendFacts.

Module ResponseFacts.
Import Py Run Run.Notations St Main Spec Script Terms ReFacts UIFacts PageFacts HandlerFacts FrameFacts ValueFacts LabelFacts SpanFacts BackendFacts.

Section Filter.
Variable Q : element -> bool.
Variables show_raw_json download_json : bool.
Hypothesis Q_success : forall f, Q (Success f) = false.
Hypothesis Q_info : forall f, Q (Info f) = false.
Hypothesis Q_markdown : forall f, Q (Markdown f) = false.
Hypothesis Q_download :
  download_json = false \/ forall l d f m, Q (DownloadButton l d f m) = false.
Hypothesis Q_json : show_raw_json = false \/ forall v, Q (Json v) = false.

(** Besides the elements of the render, a record page holds only the
    success line, the timing, rules, a heading, the download button when
    the export is on, and the raw JSON when that is on. *)
Lemma show_record_filter (w : World) (elapsed_time data : value) :
  filter Q (elements (show_record w show_raw_json download_json elapsed_time data))
  = filter Q (elements (display_awb_data data))
  \/ filter Q (elements (show_record w show_raw_json download_json elapsed_time data))
     = [].
Proof.
  unfold show_record, success, info, download_button, json. ui. cbn [app filter].
  rewrite Q_success, Q_info.
  match goal with
  | |- filter Q (elements ?A ++ _) = _ \/ _ => set (block := A)
  end.
  assert (HA : filter Q (elements block) = []).
  { subst block. destruct download_json; ui; [|reflexivity].
    destruct Q_download as [H|H]; [discriminate H|].
    cbn [app filter]. rewrite Q_markdown.
    destruct (json_dumps w data 2); ui; [|reflexivity].
    unfold get_. destruct (get data "Air Waybill Number" (PStr "unknown")); ui;
      [|reflexivity].
    cbn [app filter]. now rewrite H. }
  rewrite filter_app, HA. cbn [app].
  destruct (outcome block); [|now right]. left.
  rewrite filter_app.
  destruct (outcome (display_awb_data data)); [|now rewrite app_nil_r].
  destruct show_raw_json; ui; cbn [app filter]; [|now rewrite app_nil_r].
  destruct Q_json as [H|H]; [discriminate H|].
  rewrite ?Q_markdown, ?H, ?app_nil_r; reflexivity.
Qed.

Hypothesis Q_error : forall f, Q (Error f) = false.

(** A response page holds, besides those, an error message and the text
    area of the raw response. *)
Lemma response_filter (w : World) (elapsed_time response_text : value) :
  exists (body : list element) (raw : bool),
    filter Q (elements (handle_response w show_raw_json download_json
                          elapsed_time response_text))
    = body ++ (if raw then filter Q [raw_response_box response_text] else [])
    /\ (body = []
        \/ exists data, body = filter Q (elements (display_awb_data data))).
Proof.
  unfold handle_response. rewrite elements_try_except, filter_app.
  unfold parse_and_show, show_exception, show_no_json, error, text_area.
  destruct (json_match response_text) as [[span|]|e].
  - rewrite bind_lift_ok.
    destruct (json_loads w span) as [data|e].
    + rewrite bind_lift_ok.
      exists (filter Q (elements (show_record w show_raw_json download_json
                                    elapsed_time data))).
      destruct (outcome (show_record _ _ _ _ data)).
      * exists false. split; [reflexivity|].
        destruct (show_record_filter w elapsed_time data) as [-> | ->];
          [right; eauto | now left].
      * exists true. split.
        { ui. cbn [app filter]. now rewrite Q_error. }
        destruct (show_record_filter w elapsed_time data) as [-> | ->];
          [right; eauto | now left].
    + rewrite bind_lift_raise. exists [], true. split; [|now left].
      cbn. now rewrite Q_error.
  - rewrite bind_lift_ok. exists [], true. split; [|now left].
    ui. cbn [app filter]. rewrite Q_error, Q_info. now rewrite app_nil_r.
  - rewrite bind_lift_raise. exists [], true. split; [|now left].
    cbn. now rewrite Q_error.
Qed.

End Filter.

Lemma filter_nil_existsb {A} (Q : A -> bool) (l : list A) :
  existsb Q l = false -> filter Q l = [].
Proof.
  induction l as [|x l' IH]; cbn; [reflexivity|].
  intros H. apply orb_false_iff in H. destruct H as [-> H]. now apply IH.
Qed.

(** A response page shows no warning. *)
Lemma response_has_no_warning (w : World) (show_raw_json download_json : bool)
    (elapsed_time response_text : value) :
  filter is_warning (elements (handle_response w show_raw_json download_json
                                 elapsed_time response_text)) = [].
Proof.
  destruct (response_filter is_warning show_raw_json download_json) with (w := w)
    (elapsed_time := elapsed_time) (response_text := response_text)
    as (body & raw & -> & Hbody); try reflexivity; try (right; reflexivity).
  assert (body = []) as ->.
  { destruct Hbody as [-> | (data & ->)]; [reflexivity|].
    apply filter_nil_existsb, render_has_none.
    intros [] He; try discriminate He; reflexivity. }
  destruct raw; reflexivity.
Qed.

Lemma labels_filter (l : list element) :
  text_area_labels (filter is_text_area l) = text_area_labels l.
Proof.
  induction l as [|x l' IH]; [reflexivity|].
  change (x :: l') with ([x] ++ l'). rewrite filter_app, !labels_app, IH.
  f_equal. destruct x; reflexivity.
Qed.

Lemma keys_filter (l : list element) :
  text_area_keys (filter is_text_area l) = text_area_keys l.
Proof.
  induction l as [|x l' IH]; [reflexivity|].
  change (x :: l') with ([x] ++ l'). rewrite filter_app, !keys_app, IH.
  f_equal. destruct x; reflexivity.
Qed.

(** The text areas of a render: distinct labels, distinct keys, none
    labelled "Raw Model Response". *)
Lemma render_labels_NoDup (data : value) :
  NoDup (text_area_labels (elements (display_awb_data data))).
Proof.
  destruct (is_dict data) eqn:E.
  - destruct data; try discriminate. apply page_labels_NoDup.
  - rewrite (display_not_a_dict data E). constructor.
Qed.

Lemma render_keys_NoDup (data : value) :
  NoDup (text_area_keys (elements (display_awb_data data))).
Proof.
  destruct (is_dict data) eqn:E.
  - destruct data; try discriminate. apply page_keys_NoDup.
  - rewrite (display_not_a_dict data E). constructor.
Qed.

Lemma raw_label_not_rendered (data : value) :
  ~ In [Lit "Raw Model Response"]
       (text_area_labels (elements (display_awb_data data))).
Proof.
  intros H.
  assert (T : existsb (is_box "Raw Model Response")
                (elements (display_awb_data data)) = true).
  { rewrite is_box_labels. apply existsb_exists.
    eexists. split; [exact H | reflexivity]. }
  rewrite render_has_no_raw_box in T. discriminate T.
Qed.

(** With a toggle off, its element is on no response page. *)
Lemma no_download_when_off (w : World) (show_raw_json : bool)
    (elapsed_time response_text : value) :
  filter is_download (elements (handle_response w show_raw_json false
                                  elapsed_time response_text)) = [].
Proof.
  destruct (response_filter is_download show_raw_json false) with (w := w)
    (elapsed_time := elapsed_time) (response_text := response_text)
    as (body & raw & -> & Hbody); try reflexivity;
    try (left; reflexivity); try (right; reflexivity).
  assert (body = []) as ->.
  { destruct Hbody as [-> | (data & ->)]; [reflexivity|].
    apply filter_nil_existsb, render_has_none.
    intros [] He; try discriminate He; reflexivity. }
  destruct raw; reflexivity.
Qed.

Lemma no_raw_json_when_off (w : World) (download_json : bool)
    (elapsed_time response_text : value) :
  filter is_json (elements (handle_response w false download_json
                              elapsed_time response_text)) = [].
Proof.
  destruct (response_filter is_json false download_json) with (w := w)
    (elapsed_time := elapsed_time) (response_text := response_text)
    as (body & raw & -> & Hbody); try reflexivity;
    try (left; reflexivity); try (right; reflexivity).
  assert (body = []) as ->.
  { destruct Hbody as [-> | (data & ->)]; [reflexivity|].
    apply filter_nil_existsb, render_has_none.
    intros [] He; try discriminate He; reflexivity. }
  destruct raw; reflexivity.
Qed.

End ResponseFacts.

Module ScriptFacts.
Import Py Run Run.Notations St Main Spec Script Terms ReFacts UIFacts PageFacts HandlerFacts FrameFacts ValueFacts LabelFacts SpanFacts BackendFacts ResponseFacts.

Lemma outcome_try_except_ok {A} (m : UI A) (h : Exception -> UI A) :
  (forall e, exists a, outcome (h e) = Ok a) ->
  exists a, outcome (try_except m h) = Ok a.
Proof.
  intros H. destruct m as [ev [a|e]]; cbn; [now exists a|].
  destruct (H e) as [a Ha]. exists a. destruct (h e). exact Ha.
Qed.

(** The handler of the button returns: nothing escapes its [try]. *)
Lemma on_extract_returns (w : World) (uploaded_file : option (list byte))
    (api_key : string) (show_raw_json download_json : bool)
    (elapsed_time : value) :
  outcome (on_extract w uploaded_file api_key show_raw_json download_json
             elapsed_time) = Ok tt.
Proof.
  unfold on_extract. destruct uploaded_file as [pdf_bytes|].
  - destruct (truthy (PStr api_key)); [|reflexivity].
    rewrite outcome_within.
    destruct (outcome_try_except_ok
                (parse_and_show w show_raw_json download_json elapsed_time
                   (snd (extract_awb_data w pdf_bytes api_key)))
                (show_exception (snd (extract_awb_data w pdf_bytes api_key))))
      as [[] H]; [|exact H].
    intros e. now exists tt.
  - destruct (negb (truthy (PStr api_key))); reflexivity.
Qed.

(** One run of the script, laid out. *)
Lemma script_run (w : World) (s : Session) :
  script w s
  = (preamble
     ++ match secret s with
        | Raise _ => []
        | Ok api_key =>
            Button "✨ Extract Information"
            :: (if clicked s
                then map Body
                       (events (on_extract w (uploaded_file s) api_key
                                  (checked false (show_raw_json_box s))
                                  (checked true (download_json_box s))
                                  (elapsed_time s)))
                else [])
        end,
     match secret s with Ok _ => Ok tt | Raise e => Raise e end).
Proof.
  unfold script, checkbox, emit, lift, body, preamble, checked, ret.
  cbn [bind app].
  destruct (secret s) as [api_key|e]; [|reflexivity].
  cbn [bind app]. destruct (clicked s); [|reflexivity].
  assert (H := on_extract_returns w (uploaded_file s) api_key
                 match show_raw_json_box s with Some b => b | None => false end
                 match download_json_box s with Some b => b | None => true end
                 (elapsed_time s)).
  unfold events. unfold outcome in H.
  destruct (on_extract _ _ _ _ _ _) as [ev r]. cbn [fst snd] in *.
  subst r. reflexivity.
Qed.

End ScriptFacts.

(* ================================================================== *)
(** ** Further properties of the program *)
(* ================================================================== *)

Module Coverage.
Import Py Run Run.Notations St Main Spec Script Terms.
Import ReFacts UIFacts PageFacts HandlerFacts FrameFacts ValueFacts LabelFacts.
Import SpanFacts BackendFacts ResponseFacts ScriptFacts.
Local Open Scope string_scope.
Local Open Scope list_scope.

(** X6. The render reads the record through the twenty-four keys of
    [keys_read] and through nothing else: two records that agree on those
    keys give the same run of [display_awb_data], elements, places and
    outcome alike.  Whatever else the model returns (the prompt also asks
    for 'CHGS') is never shown. *)
Theorem page_reads_listed_keys_only (d1 d2 : items) :
  same_on keys_read d1 d2 ->
  display_awb_data (PDict d1) = display_awb_data (PDict d2).
Proof.
  intros H.
  unfold display_awb_data, basic_information, parties_information,
    agent_and_routing, goods_description, charges_details,
    declarations_and_insurance, additional_information,
    signatures_and_execution, optional_box.
  rewrite !get_dict.
  repeat match goal with
         | |- context [items_get d1 ?k ?v] =>
             rewrite (same_get d1 d2 k v (H k ltac:(unfold keys_read; in_list)))
         end.
  reflexivity.
Qed.

Lemma page_reads_listed_keys_only_witness :
  same_on keys_read
    (("CHGS", PList [PDict [("CHGS Code", PStr "AW")]]) :: sample_record)
    sample_record
  /\ display_awb_data
       (PDict (("CHGS", PList [PDict [("CHGS Code", PStr "AW")]]) :: sample_record))
     = display_awb_data (PDict sample_record).
Proof.
  assert (H : same_on keys_read
                (("CHGS", PList [PDict [("CHGS Code", PStr "AW")]]) :: sample_record)
                sample_record)
    by (apply unread_key_same; reflexivity).
  split; [exact H|].
  exact (page_reads_listed_keys_only _ _ H).
Defined.

(** X7. Inside the list sections the same holds for the rows: a routing
    leg is read through 'to' and 'by', a goods row through its nine keys, a
    charges record through 'Weight Charge', 'Valuation Charge', 'Tax',
    'Total Prepaid' and 'Total Collect'.  The other keys the prompt asks
    for in a charges record ('Total Other Charges Due Agent', 'Currency
    Conversion Rates', ...) are never shown. *)
Theorem rows_read_listed_keys_only (i : nat) (r1 r2 g1 g2 c1 c2 : items) :
  same_on leg_keys r1 r2 ->
  same_on goods_row_keys g1 g2 ->
  same_on charges_record_keys c1 c2 ->
  routing_body i (PDict r1) = routing_body i (PDict r2)
  /\ goods_body i (PDict g1) = goods_body i (PDict g2)
  /\ charges_body (PDict c1) = charges_body (PDict c2).
Proof.
  intros Hr Hg Hc. repeat split.
  - unfold routing_body. cbn [is_dict]. rewrite !get_dict.
    repeat match goal with
           | |- context [items_get r1 ?k ?v] =>
               rewrite (same_get r1 r2 k v (Hr k ltac:(unfold leg_keys; in_list)))
           end.
    reflexivity.
  - unfold goods_body. cbn [is_dict]. rewrite !get_dict.
    repeat match goal with
           | |- context [items_get g1 ?k ?v] =>
               rewrite (same_get g1 g2 k v
                          (Hg k ltac:(unfold goods_row_keys; in_list)))
           end.
    reflexivity.
  - unfold charges_body. cbn [is_dict]. rewrite !get_dict.
    repeat match goal with
           | |- context [items_get c1 ?k ?v] =>
               rewrite (same_get c1 c2 k v
                          (Hc k ltac:(unfold charges_record_keys; in_list)))
           end.
    reflexivity.
Qed.

Lemma rows_read_listed_keys_only_witness :
  let c := [("Total Prepaid", PStr "120.00")] in
  let c' := ("Currency Conversion Rates", PStr "1.08") :: c in
  same_on charges_record_keys c' c
  /\ routing_body 0 (PDict []) = routing_body 0 (PDict [])
  /\ goods_body 0 (PDict []) = goods_body 0 (PDict [])
  /\ charges_body (PDict c') = charges_body (PDict c).
Proof.
  cbv zeta.
  assert (H : same_on charges_record_keys
                [("Currency Conversion Rates", PStr "1.08");
                 ("Total Prepaid", PStr "120.00")]
                [("Total Prepaid", PStr "120.00")]).
  { intros k Hk. apply lookup_other.
    cbn in Hk. repeat (destruct Hk as [<- | Hk]; [reflexivity|]). destruct Hk. }
  split; [exact H|].
  exact (rows_read_listed_keys_only 0 [] [] [] [] _ _
           (fun _ _ => eq_refl) (fun _ _ => eq_refl) H).
Defined.

(** X8. Every key the render reads, in the record and inside its rows, is
    a key the prompt asks the model for, written there between double
    quotes. *)
Theorem prompt_names_every_key_read :
  forallb (fun k => contains (quoted k) prompt) (keys_read ++ nested_keys_read)
  = true.
Proof. vm_compute. reflexivity. Qed.

(** X9. When the render completes, each of the nineteen scalar fields that
    is present in the record is shown with the very value the record
    holds, whatever it is: an empty string or [None] is shown as such, not
    replaced by "N/A". *)
Theorem present_values_shown_unchanged (d : items) (key caption : string)
    (v : value) :
  outcome (display_awb_data (PDict d)) = Ok tt ->
  In (key, caption) scalar_fields ->
  items_lookup d key = Some v ->
  exists e, In e (page d) /\ shows_value caption v e.
Proof.
  intros Hok Hin Hv.
  rewrite <- (items_get_present d key NA v Hv).
  now apply scalar_values_shown.
Qed.

Lemma present_values_shown_unchanged_witness :
  let d := [("Flight/Date", PNone); ("Issued by", PStr EmptyString)] in
  outcome (display_awb_data (PDict d)) = Ok tt
  /\ In ("Flight/Date", "**Flight/Date:** ") scalar_fields
  /\ items_lookup d "Flight/Date" = Some PNone
  /\ exists e, In e (page d) /\ shows_value "**Flight/Date:** " PNone e.
Proof.
  cbv zeta.
  assert (Hin : In ("Flight/Date", "**Flight/Date:** ") scalar_fields)
    by (cbn; tauto).
  split; [reflexivity|]. split; [exact Hin|]. split; [reflexivity|].
  exact (present_values_shown_unchanged
           [("Flight/Date", PNone); ("Issued by", PStr EmptyString)]
           "Flight/Date" "**Flight/Date:** " PNone eq_refl Hin eq_refl).
Defined.

(** X10. The section "Additional Information" shows its heading and, for
    'Handling Information' and then 'Accounting Information', a disabled
    text area of height 60 exactly when the field is a string with
    something else than white space in it; the area holds the string as it
    is, not stripped.  The second box also needs the first field not to
    raise. *)
Theorem optional_boxes_shown_for_nonblank_text (d : items) :
  elements (additional_information (PDict d))
  = Markdown [Lit "### ℹ️ Additional Information"]
    :: (if box_shown d "Handling Information"
        then [TextArea [Lit "Handling Information"]
                (items_get d "Handling Information" NA) 60 true None]
        else [])
    ++ (if strip_safe d "Handling Information"
           && box_shown d "Accounting Information"
        then [TextArea [Lit "Accounting Information"]
                (items_get d "Accounting Information" NA) 60 true None]
        else []).
Proof.
  rewrite additional_information_elements, !optional_box_elements.
  destruct (strip_safe d "Handling Information"); reflexivity.
Qed.

(** X11. On every response page the text areas have pairwise distinct
    labels, and those that carry a widget key have pairwise distinct keys:
    the two party boxes, one box per goods row (labelled and keyed by the
    row's index), the two optional boxes and the box of the raw response
    never collide, whatever the record holds. *)
Theorem text_areas_never_collide (w : World) (show_raw_json download_json : bool)
    (elapsed_time response_text : value) :
  NoDup (text_area_labels
           (elements (handle_response w show_raw_json download_json
                        elapsed_time response_text)))
  /\ NoDup (text_area_keys
              (elements (handle_response w show_raw_json download_json
                           elapsed_time response_text))).
Proof.
  rewrite <- labels_filter, <- keys_filter.
  destruct (response_filter is_text_area show_raw_json download_json) with (w := w)
    (elapsed_time := elapsed_time) (response_text := response_text)
    as (body & raw & -> & Hbody); try reflexivity; try (right; reflexivity).
  rewrite labels_app, keys_app.
  assert (Hraw : text_area_keys
                   (if raw then filter is_text_area [raw_response_box response_text]
                    else []) = []) by (destruct raw; reflexivity).
  rewrite Hraw, app_nil_r.
  destruct Hbody as [-> | (data & ->)].
  - split; [|constructor]. destruct raw; cbn; repeat constructor. intros [].
  - rewrite labels_filter, keys_filter. split; [|apply render_keys_NoDup].
    destruct raw; cbn [filter raw_response_box is_text_area no_text_area negb
                       text_area_labels flat_map app].
    + apply NoDup_app; [apply render_labels_NoDup | repeat constructor; intros [] |].
      intros lab Hin [<- | []]. exact (raw_label_not_rendered data Hin).
    + rewrite app_nil_r. apply render_labels_NoDup.
Qed.

(** X12. A backend call ends in one of two ways.  Either all six library
    calls return, in the order rasterize, encode, client, part, generate,
    read text, and the result is the response's text as it is; or a step
    raises (or there is no page), no later step is called, and the result
    is the error text.  So the model is asked at most once per call. *)
Theorem backend_returns_reply_or_error_text (w : World) (pdf_bytes : list byte)
    (api_key : string) :
  (exists page rest img c p r text,
      convert_from_bytes w pdf_bytes = Ok (page :: rest)
      /\ save_png w page = Ok img
      /\ genai_Client w api_key = Ok c
      /\ Part_from_bytes w img "image/png" = Ok p
      /\ generate_content w c "models/gemini-2.5-flash" p prompt = Ok r
      /\ response_text w r = Ok text
      /\ extract_awb_data w pdf_bytes api_key = (calls_until ReadText, text))
  \/ (exists s e,
        raises_at w pdf_bytes api_key s e
        /\ extract_awb_data w pdf_bytes api_key = (calls_until s, error_text e)).
Proof.
  unfold extract_awb_data, extract_awb_data_try, call.
  destruct (convert_from_bytes w pdf_bytes) as [[|page rest]|e] eqn:H1;
    cbn [bind].
  { right. eexists Rasterize, _. split; [now apply raises_no_page | reflexivity]. }
  2: { right. exists Rasterize, e.
       split; [now apply raises_rasterize | reflexivity]. }
  destruct (save_png w page) as [img|e] eqn:H2; cbn [bind].
  2: { right. exists EncodePNG, e.
       split; [eapply raises_encode; eassumption | reflexivity]. }
  destruct (genai_Client w api_key) as [c|e] eqn:H3; cbn [bind].
  2: { right. exists MakeClient, e.
       split; [eapply raises_client; eassumption | reflexivity]. }
  destruct (Part_from_bytes w img "image/png") as [p|e] eqn:H4; cbn [bind].
  2: { right. exists MakePart, e.
       split; [eapply raises_part; eassumption | reflexivity]. }
  destruct (generate_content w c "models/gemini-2.5-flash" p prompt)
    as [r|e] eqn:H5; cbn [bind].
  2: { right. exists Generate, e.
       split; [eapply raises_generate; eassumption | reflexivity]. }
  destruct (response_text w r) as [text|e] eqn:H6; cbn [bind].
  2: { right. exists ReadText, e.
       split; [eapply raises_text; eassumption | reflexivity]. }
  left. exists page, rest, img, c, p, r, text. repeat split; assumption.
Qed.

(** X13. Only the first page of the upload is read: dropping every page
    after the first from what the rasterizer returns changes neither the
    calls and the result of the backend nor the page shown. *)
Theorem only_first_page_is_read (w : World) (pdf_bytes : list byte)
    (api_key : string) (show_raw_json download_json : bool)
    (elapsed_time : value) :
  extract_awb_data (first_page_only w) pdf_bytes api_key
  = extract_awb_data w pdf_bytes api_key
  /\ on_extract (first_page_only w) (Some pdf_bytes) api_key show_raw_json
       download_json elapsed_time
     = on_extract w (Some pdf_bytes) api_key show_raw_json download_json
         elapsed_time.
Proof.
  split; [apply first_page_only_backend|].
  unfold on_extract. rewrite first_page_only_backend. reflexivity.
Qed.

(** X14. The text handed to [json.loads] is the embedded object itself
    exactly when no opening brace stands before the object and no closing
    brace after it: one stray brace on either side and the span is wider
    than the object. *)
Theorem exact_recovery_iff_no_stray_brace (pre mid post : string) :
  json_match (PStr (pre ++ String "{" (mid ++ String "}" post))%string)
  = Ok (Some (String "{" (mid ++ String "}" EmptyString)%string))
  <-> occurs "{" pre = false /\ occurs "}" post = false.
Proof.
  unfold json_match. split.
  - intros [= H]. exact (exact_span_only_if pre mid post H).
  - intros [H1 H2]. now rewrite (search_decomposed pre mid post H1 H2).
Qed.

(** X15. A response page is of one of two kinds.  Either it shows no error
    and no raw response, begins with the success line, and a record was
    matched, decoded and rendered to its end; or it shows exactly one error
    message and exactly one raw-response box, which holds the response as
    it was received and is the last element of the page. *)
Theorem response_page_clean_or_single_error (w : World)
    (show_raw_json download_json : bool) (elapsed_time response_text : value) :
  let pg := elements (handle_response w show_raw_json download_json
                        elapsed_time response_text) in
  (filter is_error pg = []
   /\ filter (is_box "Raw Model Response") pg = []
   /\ (exists rest, pg = Success [Lit "✅ Extraction Complete!"] :: rest)
   /\ exists span data,
        json_match response_text = Ok (Some span)
        /\ json_loads w span = Ok data
        /\ outcome (display_awb_data data) = Ok tt)
  \/ (exists msg,
        filter is_error pg = [Error msg]
        /\ filter (is_box "Raw Model Response") pg = [raw_response_box response_text]
        /\ last pg rule = raw_response_box response_text).
Proof.
  cbv zeta. unfold handle_response. rewrite elements_try_except.
  unfold parse_and_show.
  destruct (json_match response_text) as [[span|]|e] eqn:M.
  - rewrite bind_lift_ok.
    destruct (json_loads w span) as [data|e] eqn:L.
    + rewrite bind_lift_ok.
      destruct (show_record_body w show_raw_json download_json elapsed_time data)
        as (body & Hb & Hclean).
      rewrite Hb. apply noise_split in Hclean. destruct Hclean as [He Hr].
      destruct (outcome (show_record _ _ _ _ data)) as [u|e] eqn:O.
      * left. rewrite app_nil_r. cbn [filter is_error is_box]. rewrite He, Hr.
        repeat split. { now eexists. }
        exists span, data. split; [reflexivity|]. split; [exact L|].
        exact (show_record_ok_render_ok _ _ _ _ _ _ O).
      * right. eexists. cbn [app filter is_error is_box].
        rewrite !filter_app, He, Hr. repeat split.
        apply (last_ends_with
                 (Success [Lit "✅ Extraction Complete!"]
                  :: Info [Lit "⏱️ **Processing Time:** "; FmtSpec elapsed_time ".2f"; Lit " seconds"]
                  :: body)).
    + right. rewrite bind_lift_raise. eexists. repeat split.
  - right. rewrite bind_lift_ok. eexists. repeat split.
  - right. rewrite bind_lift_raise. eexists. repeat split.
Qed.

(** X16. When the backend returns something that is no string (the
    response's text is [None]), [re.search] raises [TypeError]; the page is
    the "unexpected error" message with the interpreter's text and the box
    of the raw response, and nothing else. *)
Theorem non_text_reply_shows_type_error (w : World)
    (show_raw_json download_json : bool) (elapsed_time response_text : value) :
  match response_text with PStr _ => False | _ => True end ->
  elements (handle_response w show_raw_json download_json elapsed_time
              response_text)
  = [ Error [Lit "An unexpected error occurred: ";
             Fmt (PStr ("expected string or bytes-like object, got '"
                          ++ type_name response_text ++ "'")%string)];
      raw_response_box response_text ].
Proof. destruct response_text; intros H; try reflexivity. destruct H. Qed.

Lemma non_text_reply_shows_type_error_witness :
  snd (extract_awb_data no_text_world not_a_pdf "key") = PNone
  /\ elements (handle_response no_text_world false true one_and_a_half PNone)
     = [ Error [Lit "An unexpected error occurred: ";
                Fmt (PStr "expected string or bytes-like object, got 'NoneType'")];
         raw_response_box PNone ].
Proof.
  split; [reflexivity|].
  exact (non_text_reply_shows_type_error no_text_world false true
           one_and_a_half PNone I).
Defined.

(** X17. A press with an input missing shows one warning and nothing else:
    the one about the API key when the key is empty, whether or not a file
    was chosen, and the one about the upload otherwise.  With both inputs
    present the page is the response page of the backend's result, and it
    shows no warning. *)
Theorem warning_names_missing_input (w : World)
    (uploaded_file : option (list byte)) (api_key : string)
    (show_raw_json download_json : bool) (elapsed_time : value) :
  let pg := elements (on_extract w uploaded_file api_key show_raw_json
                        download_json elapsed_time) in
  if String.eqb api_key EmptyString then pg = [key_warning]
  else match uploaded_file with
       | None => pg = [upload_warning]
       | Some pdf_bytes =>
           filter is_warning pg = []
           /\ pg = elements (handle_response w show_raw_json download_json
                               elapsed_time
                               (snd (extract_awb_data w pdf_bytes api_key)))
       end.
Proof.
  cbv zeta. unfold on_extract.
  destruct api_key as [|c k]; cbn [String.eqb truthy negb].
  - destruct uploaded_file; reflexivity.
  - destruct uploaded_file as [pdf_bytes|]; [|reflexivity].
    rewrite elements_within. split; [apply response_has_no_warning | reflexivity].
Qed.

(** X18. One run of the page script.  It always shows the page
    configuration, the title, the introduction, the sidebar with its two
    checkboxes (raw JSON off and download on until touched) and the file
    uploader.  It fails exactly when the secret 'GOOGLE_API_KEY' cannot be
    read, with that exception, and then shows neither the button nor
    anything of the handler.  Otherwise it shows the button, runs the
    handler when the button was pressed, and ends without an exception. *)
Theorem script_fails_only_without_secret (w : World) (s : Session) :
  events (script w s)
  = preamble
    ++ match secret s with
       | Raise _ => []
       | Ok api_key =>
           Button "✨ Extract Information"
           :: (if clicked s
               then map Body
                      (events (on_extract w (uploaded_file s) api_key
                                 (checked false (show_raw_json_box s))
                                 (checked true (download_json_box s))
                                 (elapsed_time s)))
               else [])
       end
  /\ outcome (script w s)
     = match secret s with Ok _ => Ok tt | Raise e => Raise e end.
Proof. rewrite script_run. split; reflexivity. Qed.

(** X19. With the export switched off no response page has a download
    button, and with the raw JSON switched off no response page shows the
    decoded JSON. *)
Theorem toggles_off_hide_export_and_raw_json (w : World)
    (show_raw_json download_json : bool) (elapsed_time response_text : value) :
  filter is_download
    (elements (handle_response w show_raw_json false elapsed_time response_text))
  = []
  /\ filter is_json
       (elements (handle_response w false download_json elapsed_time response_text))
     = [].
Proof. split; [apply no_download_when_off | apply no_raw_json_when_off]. Qed.

End Coverage.
